(** * DeFi Guardian Swarm: a shallow embedding and its verified properties

    The development follows the Python sources
    [python/scripts/run_defi_guardian_swarm.py] and
    [python/scripts/solana_integration.py].

    - [Py]: the Python values that the scripts put in configuration
      dictionaries and result dictionaries.
    - [Swarm]: the agent blueprints, the four agent factories,
      [create_and_deploy_agents] and [demonstrate_coordination].
    - [Solana]: [SolanaOnchainAgent] with its mock pool table.
    - [Coordinator]: the signal normaliser and the deterministic
      coordination policy of the design document (sections 3 and 4).  The
      scripts have no such code: they send a scenario to the coordinator
      agent behind [call_webhook] and drop its answer.  Every definition
      of this module that follows the document says so.
    - [SwarmProps], [SolanaProps], [CoordinatorProps]: the properties.

    Python floats are modelled by exact rationals ([Q]); calls into the
    [juliaos] package either return a value or raise. *)

From Stdlib Require Import QArith Lia Lqa Floats DecimalString.
From stdpp Require Import gmap strings list fin_maps.

Local Open Scope string_scope.

(* Decimal float literals denote the nearest binary64 value, as in Python. *)
#[local] Set Warnings "-inexact-float".

(* ===================================================================== *)
(** ** Python values *)
(* ===================================================================== *)

Module Py.

(** The values that occur in the dictionaries of the two scripts.  A
    dictionary literal is kept as its list of items, in source order. *)
#[local] Unset Elimination Schemes.
Inductive value : Type :=
| Str (s : string)
| Float (q : Q)
| Int (z : Z)
| Bool (b : bool)
| List (l : list value)
| Dict (items : list (string * value)).
#[local] Set Elimination Schemes.

Definition dict : Type := list (string * value).

(** [d.get(k)]: the value stored under the key [k], if any. *)
Fixpoint get (k : string) (d : dict) : option value :=
  match d with
  | [] => None
  | (k', v) :: rest => if String.eqb k' k then Some v else get k rest
  end.

Definition keys (d : dict) : list string := map fst d.

(** [s.startswith(p)] *)
Fixpoint starts_with (p s : string) : bool :=
  match p, s with
  | EmptyString, _ => true
  | String _ _, EmptyString => false
  | String a p', String b s' => Ascii.eqb a b && starts_with p' s'
  end.

(** [sub in s]: [sub] occurs in [s]. *)
Fixpoint contains (sub s : string) : bool :=
  starts_with sub s
  || match s with
     | EmptyString => false
     | String _ s' => contains sub s'
     end.

(** [a < b] on floats. *)
Definition float_lt (a b : Q) : bool := negb (Qle_bool b a).

End Py.

(* ===================================================================== *)
(** ** The swarm script: blueprints and agent factories *)
(* ===================================================================== *)

Module Swarm.

Import Py.

(** The blueprint classes of the [juliaos] package, as the scripts
    construct them (keyword arguments become fields). *)
Record ToolBlueprint := mkTool {
  tool_name : string;
  tool_config : dict
}.

Record StrategyBlueprint := mkStrategy {
  strategy_name : string;
  strategy_config : dict
}.

Record TriggerConfig := mkTrigger {
  trigger_type : string;
  trigger_params : dict
}.

Record AgentBlueprint := mkBlueprint {
  tools : list ToolBlueprint;
  strategy : StrategyBlueprint;
  trigger : TriggerConfig
}.

(** One entry of the lists the factories return:
    [(id, name, description, blueprint)]. *)
Definition agent_entry : Type := (string * string * string * AgentBlueprint)%type.

Definition entry_id (e : agent_entry) : string := e.1.1.1.
Definition entry_name (e : agent_entry) : string := e.1.1.2.
Definition entry_description (e : agent_entry) : string := e.1.2.
Definition entry_blueprint (e : agent_entry) : AgentBlueprint := e.2.

(** Swarm IDs *)
Definition RISK_SWARM_ID : string := "defi-risk-swarm".
Definition MEV_SWARM_ID : string := "defi-mev-swarm".
Definition GOVERNANCE_SWARM_ID : string := "defi-governance-swarm".
Definition COORDINATOR_AGENT_ID : string := "defi-coordinator-agent".

Definition llm_chat : ToolBlueprint := mkTool "llm_chat" [].
Definition webhook : TriggerConfig := mkTrigger "webhook" [].

Definition strs (l : list string) : value := List (map Str l).

Definition create_risk_management_agents : list agent_entry :=
  let portfolio_analyzer :=
    mkBlueprint [llm_chat]
      (mkStrategy "portfolio_risk_analysis"
         [ ("specialization", Str "portfolio_risk_assessment");
           ("risk_thresholds",
             Dict [ ("high", Float 0.8); ("medium", Float 0.5); ("low", Float 0.2) ]);
           ("analysis_frequency", Str "real_time") ])
      webhook in
  let liquidity_monitor :=
    mkBlueprint [llm_chat]
      (mkStrategy "liquidity_monitoring"
         [ ("specialization", Str "liquidity_risk_assessment");
           ("monitored_pools", strs ["SOL/USDC"; "BTC/USDC"; "ETH/USDC"]);
           ("slippage_thresholds",
             Dict [ ("warning", Float 0.01); ("critical", Float 0.05) ]) ])
      webhook in
  let volatility_tracker :=
    mkBlueprint [llm_chat]
      (mkStrategy "volatility_analysis"
         [ ("specialization", Str "market_volatility_tracking");
           ("lookback_periods", List [Int 24; Int 168; Int 720]);
           ("volatility_models", strs ["historical"; "garch"; "implied"]) ])
      webhook in
  [ ("portfolio-risk-analyzer", "Portfolio Risk Analyzer",
     "Analyzes portfolio risk and concentration", portfolio_analyzer);
    ("liquidity-monitor", "Liquidity Monitor",
     "Monitors liquidity and slippage risks", liquidity_monitor);
    ("volatility-tracker", "Volatility Tracker",
     "Tracks market volatility and price risks", volatility_tracker) ].

Definition create_mev_protection_agents : list agent_entry :=
  let mempool_scanner :=
    mkBlueprint [llm_chat]
      (mkStrategy "mempool_monitoring"
         [ ("specialization", Str "mempool_threat_detection");
           ("scan_frequency", Str "real_time");
           ("detection_algorithms",
             strs ["sandwich_detection"; "frontrun_detection"; "gas_analysis"]) ])
      webhook in
  let sandwich_detector :=
    mkBlueprint [llm_chat]
      (mkStrategy "sandwich_detection"
         [ ("specialization", Str "sandwich_attack_prevention");
           ("detection_methods",
             strs ["price_impact_analysis"; "timing_correlation"; "gas_pattern_analysis"]);
           ("minimum_impact_threshold", Float 0.01) ])
      webhook in
  let tx_optimizer :=
    mkBlueprint [llm_chat]
      (mkStrategy "transaction_optimization"
         [ ("specialization", Str "mev_resistant_execution");
           ("optimization_targets",
             strs ["mev_protection"; "gas_efficiency"; "execution_certainty"]);
           ("protection_mechanisms",
             strs ["private_mempool"; "flashbots_protection"; "timing_optimization"]) ])
      webhook in
  [ ("mempool-scanner", "Mempool Scanner",
     "Scans mempool for MEV threats", mempool_scanner);
    ("sandwich-detector", "Sandwich Attack Detector",
     "Detects and prevents sandwich attacks", sandwich_detector);
    ("tx-optimizer", "Transaction Optimizer",
     "Optimizes transactions for MEV protection", tx_optimizer) ].

Definition create_governance_agents : list agent_entry :=
  let proposal_analyzer :=
    mkBlueprint [llm_chat]
      (mkStrategy "proposal_analysis"
         [ ("specialization", Str "dao_proposal_evaluation");
           ("analysis_frameworks",
             strs ["economic_impact"; "technical_feasibility"; "governance_implications"]);
           ("expertise_areas", strs ["tokenomics"; "smart_contracts"; "dao_mechanics"]) ])
      webhook in
  let sentiment_monitor :=
    mkBlueprint [llm_chat]
      (mkStrategy "sentiment_monitoring"
         [ ("specialization", Str "community_sentiment_analysis");
           ("monitoring_sources",
             strs ["discord"; "twitter"; "forum"; "governance_votes"]);
           ("sentiment_indicators",
             strs ["engagement"; "discussion_quality"; "voting_patterns"]) ])
      webhook in
  let voting_optimizer :=
    mkBlueprint [llm_chat]
      (mkStrategy "voting_optimization"
         [ ("specialization", Str "optimal_voting_strategy");
           ("optimization_goals",
             strs ["dao_value_maximization"; "risk_minimization"; "community_alignment"]);
           ("strategy_types", strs ["delegation"; "direct_voting"; "coalition_building"]) ])
      webhook in
  [ ("proposal-analyzer", "Proposal Analyzer",
     "Analyzes DAO proposals for impact and risks", proposal_analyzer);
    ("sentiment-monitor", "Community Sentiment Monitor",
     "Monitors community sentiment and engagement", sentiment_monitor);
    ("voting-optimizer", "Voting Strategy Optimizer",
     "Optimizes voting strategies for maximum impact", voting_optimizer) ].

Definition create_coordinator_agent : AgentBlueprint :=
  mkBlueprint [llm_chat]
    (mkStrategy "swarm_coordination"
       [ ("specialization", Str "multi_swarm_coordination");
         ("coordination_priorities",
           Dict [ ("critical", Int 1); ("high", Int 2); ("medium", Int 3); ("low", Int 4) ]);
         ("decision_types",
           strs ["emergency_stop"; "rebalance_portfolio"; "block_transaction";
                 "alert_user"; "vote_proposal"; "update_strategy"]);
         ("consensus_threshold", Float 0.7) ])
    webhook.

(** The default [consensus_threshold] is the one the coordinator's
    strategy configuration carries. *)
Definition configured_consensus_threshold : option Q :=
  match get "consensus_threshold" (strategy_config (strategy create_coordinator_agent)) with
  | Some (Float q) => Some q
  | _ => None
  end.

(** *** [create_and_deploy_agents]

    [juliaos.Agent.create] and [Agent.set_state] talk to the back end
    and may raise.  A call either returns or raises an [Exception]
    whose text is kept. *)
Inductive result (A : Type) : Type :=
| Ok (a : A)
| Raise (e : string).
Arguments Ok {A} a.
Arguments Raise {A} e.

Definition bind {A B : Type} (r : result A) (k : A -> result B) : result B :=
  match r with
  | Ok a => k a
  | Raise e => Raise e
  end.

Inductive AgentState := CREATED | RUNNING | PAUSED | STOPPED.

Section Deploy.

(** The agent handles of the [juliaos] package, with their [id]. *)
Variable Agent : Type.

(** The back end seen through the connection [conn]. *)
Record backend := mkBackend {
  Agent_create : AgentBlueprint -> string -> string -> string -> result Agent;
  Agent_set_state : Agent -> AgentState -> result unit
}.

Variable conn : backend.

(** The state the function threads through its loops: the list
    [created_agents] and the lines printed so far. *)
Definition deploy_state : Type := (list Agent * list string)%type.

Definition print (line : string) (st : deploy_state) : deploy_state :=
  (st.1, (st.2 ++ [line])%list).

Definition append_agent (a : Agent) (st : deploy_state) : deploy_state :=
  ((st.1 ++ [a])%list, st.2).

(** The body of a [try] block: create the agent, then start it. *)
Definition create_and_start (bp : AgentBlueprint) (id name description : string)
  : result Agent :=
  bind (Agent_create conn bp id name description) (fun agent =>
  bind (Agent_set_state conn agent RUNNING) (fun _ =>
  Ok agent)).

(** One [try ... except Exception as e] statement; [label] is the text
    printed for the agent. *)
Definition try_deploy (bp : AgentBlueprint) (id name description label_ok label_fail : string)
    (st : deploy_state) : deploy_state :=
  match create_and_start bp id name description with
  | Ok agent => print ("  ✅ " +:+ label_ok +:+ " created and started") (append_agent agent st)
  | Raise e => print ("  ❌ Failed to create " +:+ label_fail +:+ ": " +:+ e) st
  end.

(** The body of the three [for] loops. *)
Definition deploy_entry (st : deploy_state) (e : agent_entry) : deploy_state :=
  try_deploy (entry_blueprint e) (entry_id e) (entry_name e) (entry_description e)
    (entry_name e) (entry_name e) st.

Definition nl : string := String (Ascii.ascii_of_nat 10) "".

Definition create_and_deploy_agents_state : deploy_state :=
  let st := print "🚀 Creating DeFi Guardian Swarm Agents..." ([], []) in
  let st := print (nl +:+ "🛡️ Creating Risk Management Agents...") st in
  let st := fold_left deploy_entry create_risk_management_agents st in
  let st := print (nl +:+ "⚡ Creating MEV Protection Agents...") st in
  let st := fold_left deploy_entry create_mev_protection_agents st in
  let st := print (nl +:+ "🏛️ Creating Governance Advisory Agents...") st in
  let st := fold_left deploy_entry create_governance_agents st in
  let st := print (nl +:+ "🤖 Creating Central Coordinator Agent...") st in
  try_deploy create_coordinator_agent COORDINATOR_AGENT_ID
    "DeFi Guardian Coordinator" "Central coordinator for all DeFi Guardian swarms"
    "Central Coordinator" "Central Coordinator" st.

(** The value returned: [created_agents]. *)
Definition create_and_deploy_agents : list Agent :=
  create_and_deploy_agents_state.1.

(** What the call prints. *)
Definition create_and_deploy_output : list string :=
  create_and_deploy_agents_state.2.

End Deploy.

Arguments Agent_create {Agent} _ _ _ _ _.
Arguments Agent_set_state {Agent} _ _ _.
Arguments create_and_start {Agent} _ _ _ _ _.
Arguments create_and_deploy_agents {Agent} _.
Arguments create_and_deploy_output {Agent} _.
Arguments create_and_deploy_agents_state {Agent} _.
Arguments deploy_entry {Agent} _ _ _.
Arguments try_deploy {Agent} _ _ _ _ _ _ _ _.

(** The ten agents the function tries to create, in order: the nine
    swarm agents and the coordinator. *)
Definition coordinator_entry : agent_entry :=
  (COORDINATOR_AGENT_ID, "DeFi Guardian Coordinator",
   "Central coordinator for all DeFi Guardian swarms", create_coordinator_agent).

Definition all_entries : list agent_entry :=
  (create_risk_management_agents ++ create_mev_protection_agents
   ++ create_governance_agents ++ [coordinator_entry])%list.

Definition all_agent_ids : list string := map entry_id all_entries.

(** The outcome of the [try] block for one entry. *)
Definition attempt {Agent : Type} (conn : backend Agent) (e : agent_entry) : result Agent :=
  create_and_start conn (entry_blueprint e) (entry_id e) (entry_name e) (entry_description e).

Definition succeeded {Agent : Type} (conn : backend Agent) (e : agent_entry) : option Agent :=
  match attempt conn e with
  | Ok a => Some a
  | Raise _ => None
  end.

(** The name printed for an entry (the coordinator is called
    "Central Coordinator" in the messages). *)
Definition printed_name (e : agent_entry) : string :=
  if String.eqb (entry_id e) COORDINATOR_AGENT_ID then "Central Coordinator" else entry_name e.

(** *** [demonstrate_coordination]

    The agent handles answer [call_webhook] with a response or raise;
    [repr] is Python's [str] of a dictionary, which the f-string puts
    into the prompt. *)
Section Coordination.

Variable Agent : Type.
Variable Response : Type.
Variable agent_id : Agent -> string.
Variable call_webhook : Agent -> dict -> result Response.
Variable repr : value -> string.

(** The [for agent in agents] loop with its [break]. *)
Fixpoint find_coordinator (agents : list Agent) : option Agent :=
  match agents with
  | [] => None
  | agent :: rest =>
      if String.eqb (agent_id agent) COORDINATOR_AGENT_ID then Some agent
      else find_coordinator rest
  end.

(** Simulate a complex scenario requiring coordination *)
Definition coordination_scenario : value :=
  Dict
    [ ("scenario_type", Str "coordinated_threat_response");
      ("threats_detected",
        List
          [ Dict [ ("type", Str "high_portfolio_risk");
                   ("severity", Str "HIGH");
                   ("source", Str "risk_swarm");
                   ("details", Str "Portfolio concentration risk exceeded 0.8 threshold") ];
            Dict [ ("type", Str "mev_attack_imminent");
                   ("severity", Str "CRITICAL");
                   ("source", Str "mev_swarm");
                   ("details", Str "Sandwich attack setup detected in mempool") ];
            Dict [ ("type", Str "governance_proposal_risk");
                   ("severity", Str "MEDIUM");
                   ("source", Str "governance_swarm");
                   ("details", Str "High-risk proposal with insufficient community analysis") ] ]);
      ("system_state",
        Dict [ ("portfolio_value_usd", Int 32000);
               ("active_transactions", Int 2);
               ("pending_votes", Int 1) ]) ].

Definition coordination_prompt : string :=
  String.concat nl
    [ "";
      "            As the central coordinator for the DeFi Guardian Swarm system, analyze the following multi-threat scenario and provide coordinated response strategy:";
      "            ";
      "            Scenario: " +:+ repr coordination_scenario;
      "            ";
      "            Please provide coordinated response including:";
      "            ";
      "            1. **Threat Prioritization**:";
      "               - Priority ranking of all detected threats";
      "               - Immediate vs. delayed response classification";
      "               - Resource allocation recommendations";
      "               ";
      "            2. **Cross-Swarm Coordination Strategy**:";
      "               - Risk swarm action items";
      "               - MEV swarm protection measures";
      "               - Governance swarm advisory updates";
      "               ";
      "            3. **Decision Framework**:";
      "               - Emergency actions required";
      "               - User notification strategy";
      "               - Transaction modification recommendations";
      "               ";
      "            4. **Risk Mitigation Plan**:";
      "               - Immediate protective measures";
      "               - Medium-term strategy adjustments";
      "               - Long-term system improvements";
      "               ";
      "            5. **Success Metrics**:";
      "               - How to measure response effectiveness";
      "               - Key performance indicators";
      "               - Learning points for future scenarios";
      "            ";
      "            Provide a comprehensive coordination strategy that addresses all threats while optimizing overall system protection.";
      "            " ].

(** What [demonstrate_coordination] prints; it returns nothing, and the
    response of the webhook is bound to [result] and never read. *)
Definition demonstrate_coordination (agents : list Agent) : list string :=
  let out := [nl +:+ "🤖 Demonstrating Swarm Coordination..."] in
  match find_coordinator agents with
  | Some coordinator =>
      match call_webhook coordinator [("prompt", Str coordination_prompt)] with
      | Ok _ =>
          (out ++ [ "🎯 Coordination Strategy Result:";
                    "   Coordinator: " +:+ agent_id coordinator;
                    "   Strategy: Multi-threat coordination completed" ])%list
      | Raise e => (out ++ ["❌ Coordination demonstration failed: " +:+ e])%list
      end
  | None => (out ++ ["❌ Coordinator agent not found"])%list
  end.

End Coordination.

Arguments find_coordinator {Agent} _ _.
Arguments demonstrate_coordination {Agent Response} _ _ _ _.

(** The line an [except] branch prints. *)
Definition failure_line (name err : string) : string :=
  "  ❌ Failed to create " +:+ name +:+ ": " +:+ err.

(** The reading of "every failure is converted into a finding" on what
    the function returns: each failed entry has an element of the
    returned list that carries its id. *)
Definition failures_recorded {Agent : Type} (agent_id : Agent -> string)
    (conn : backend Agent) : Prop :=
  forall e err, e ∈ all_entries -> attempt conn e = Raise err ->
    exists a, a ∈ create_and_deploy_agents conn /\ agent_id a = entry_id e.

(** A back end whose agent handles are the ids, and which refuses to
    create the liquidity monitor. *)
Definition flaky_backend : backend string :=
  {| Agent_create := fun _ id _ _ =>
       if String.eqb id "liquidity-monitor" then Raise "backend unavailable" else Ok id;
     Agent_set_state := fun _ _ => Ok tt |}.

(** *** Python's subscripts and [in] on values *)

(** [v[key]] for a string key: a missing key raises [KeyError], and only
    a dictionary takes a string subscript. *)
Definition item (v : value) (key : string) : result value :=
  match v with
  | Dict d =>
      match get key d with
      | Some x => Ok x
      | None => Raise ("'" +:+ key +:+ "'")
      end
  | _ => Raise "object is not subscriptable"
  end.

(** Python's [in] on values

    [kw in v] for a string [kw]: substring search in a string, membership
    in a list, key membership in a dictionary; a number or a boolean is
    not iterable and the test raises [TypeError]. *)
Definition in_value (kw : string) (v : value) : result bool :=
  match v with
  | Str s => Ok (contains kw s)
  | List l =>
      Ok (existsb (fun x => match x with Str s => String.eqb s kw | _ => false end) l)
  | Dict d => Ok (existsb (fun k => String.eqb k kw) (keys d))
  | Int _ => Raise "argument of type 'int' is not iterable"
  | Float _ => Raise "argument of type 'float' is not iterable"
  | Bool _ => Raise "argument of type 'bool' is not iterable"
  end.

(** [any(keyword in v for keyword in keywords)]: the tests run in order
    and stop at the first that holds. *)
Fixpoint any_keyword_in (keywords : list string) (v : value) : result bool :=
  match keywords with
  | [] => Ok false
  | keyword :: rest =>
      bind (in_value keyword v) (fun found =>
      if found then Ok true else any_keyword_in rest v)
  end.

(** [agent_info.get('id', '')]; only a dictionary has [get]. *)
Definition info_id (agent_info : value) : result value :=
  match agent_info with
  | Dict d => Ok (default (Str "") (get "id" d))
  | _ => Raise "object has no attribute 'get'"
  end.

(** [agent_info['id']] *)
Definition info_id_item (agent_info : value) : result value :=
  item agent_info "id".

(** The keywords of the clean-up in [main]. *)
Definition cleanup_keywords : list string :=
  [ "defi"; "risk"; "mev"; "governance"; "coordinator"; "portfolio"; "liquidity";
    "volatility"; "mempool"; "sandwich"; "proposal"; "sentiment"; "voting" ].

(** The condition of the clean-up loop:
    [any(keyword in agent_info.get('id', '') for keyword in [...])]. *)
Definition cleanup_matches (agent_info : value) : result bool :=
  bind (info_id agent_info) (any_keyword_in cleanup_keywords).

(** *** The clean-up block of [main]

    [Agent.load] and [agent.delete] talk to the back end; [repr] is
    Python's [str] of a value that is not a string. *)
Section Cleanup.

Variable Agent : Type.
Variable Agent_load : value -> result Agent.
Variable Agent_delete : Agent -> result unit.
Variable repr : value -> string.

(** An id inside an f-string. *)
Definition format_value (v : value) : string :=
  match v with
  | Str s => s
  | _ => repr v
  end.

(** The inner [try]: load the agent, delete it, report. *)
Definition delete_existing (agent_info : value) : result string :=
  bind (info_id_item agent_info) (fun id =>
  bind (Agent_load id) (fun agent =>
  bind (Agent_delete agent) (fun _ =>
  bind (info_id_item agent_info) (fun id' =>
  Ok ("   🗑️ Deleted existing agent: " +:+ format_value id'))))).

(** One iteration of the loop.  [Raise] is an exception that leaves the
    loop; the inner bare [except] swallows what [delete_existing]
    raises. *)
Definition cleanup_one (agent_info : value) : result (list string) :=
  bind (cleanup_matches agent_info) (fun matched =>
  if matched then
    match delete_existing agent_info with
    | Ok line => Ok [line]
    | Raise _ => Ok []
    end
  else Ok []).

(** The [for agent_info in existing_agents] loop under the outer bare
    [except]: an exception ends the loop, and what was printed stays. *)
Fixpoint cleanup_loop (existing_agents : list value) : list string :=
  match existing_agents with
  | [] => []
  | agent_info :: rest =>
      match cleanup_one agent_info with
      | Ok lines => (lines ++ cleanup_loop rest)%list
      | Raise _ => []
      end
  end.

(** The block, from the answer of [conn.list_agents()]. *)
Definition cleanup_existing_agents (list_agents : result (list value)) : list string :=
  ((nl +:+ "🧹 Cleaning up existing agents...")
   :: match list_agents with
      | Ok existing_agents => cleanup_loop existing_agents
      | Raise _ => []
      end)%list.

End Cleanup.

Arguments delete_existing {Agent} _ _ _ _.
Arguments cleanup_one {Agent} _ _ _ _.
Arguments cleanup_loop {Agent} _ _ _ _.
Arguments cleanup_existing_agents {Agent} _ _ _ _.

(** *** [print_system_status] and the three domain demonstrations *)

(** [any(x in s for x in xs)] for a string [s]. *)
Definition any_in (xs : list string) (s : string) : bool :=
  existsb (fun x => contains x s) xs.

(** [str(n)] for a length. *)
Definition str_of_nat (n : nat) : string :=
  NilEmpty.string_of_uint (Nat.to_uint n).

(** ["=" * n] *)
Definition rule (n : nat) : string := String.concat "" (repeat "=" n).

Section Status.

Variable Agent : Type.
Variable Response : Type.
Variable agent_id : Agent -> string.
Variable call_webhook : Agent -> dict -> result Response.
Variable repr : value -> string.

Definition status_risk_agents (agents : list Agent) : list Agent :=
  filter (fun a => any_in ["portfolio"; "liquidity"; "volatility"] (agent_id a) = true) agents.

Definition status_mev_agents (agents : list Agent) : list Agent :=
  filter (fun a => any_in ["mempool"; "sandwich"; "tx-optimizer"] (agent_id a) = true) agents.

Definition status_governance_agents (agents : list Agent) : list Agent :=
  filter (fun a => any_in ["proposal"; "sentiment"; "voting"] (agent_id a) = true) agents.

(** What [print_system_status] prints. *)
Definition print_system_status (agents : list Agent) : list string :=
  let risk_agents := status_risk_agents agents in
  let mev_agents := status_mev_agents agents in
  let governance_agents := status_governance_agents agents in
  [ nl +:+ rule 80;
    "🎯 DeFi Guardian Swarm System Status";
    rule 80;
    nl +:+ "📊 Active Agents: " +:+ str_of_nat (length agents);
    "   🛡️ Risk Management Agents: " +:+ str_of_nat (length risk_agents);
    "   ⚡ MEV Protection Agents: " +:+ str_of_nat (length mev_agents);
    "   🏛️ Governance Advisory Agents: " +:+ str_of_nat (length governance_agents);
    "   🤖 Coordinator Agents: 1";
    nl +:+ "🚀 System Capabilities:";
    "   ✅ Real-time portfolio risk assessment";
    "   ✅ MEV attack detection and prevention";
    "   ✅ DAO governance proposal analysis";
    "   ✅ Multi-swarm coordination and decision making";
    "   ✅ Automated threat response and mitigation";
    nl +:+ "🔌 Integration Status:";
    "   ✅ JuliaOS Framework Integration";
    "   ✅ LLM-powered Agent Intelligence";
    "   ✅ Multi-agent Swarm Coordination";
    "   ✅ Real-time Threat Detection";
    "   ✅ Automated Decision Making";
    nl +:+ rule 80 ].

(** The [for agent in agents] loops of the three domain demonstrations:
    the first agent whose id contains [keyword]. *)
Fixpoint find_agent_containing (keyword : string) (agents : list Agent) : option Agent :=
  match agents with
  | [] => None
  | agent :: rest =>
      if contains keyword (agent_id agent) then Some agent
      else find_agent_containing keyword rest
  end.

(** Sample portfolio data for analysis *)
Definition portfolio_data : value :=
  Dict
    [ ("positions",
        List
          [ Dict [ ("token", Str "SOL"); ("amount", Float 100.0);
                   ("value_usd", Float 15000.0); ("allocation", Float 0.5) ];
            Dict [ ("token", Str "USDC"); ("amount", Float 5000.0);
                   ("value_usd", Float 5000.0); ("allocation", Float 0.17) ];
            Dict [ ("token", Str "BTC"); ("amount", Float 0.1);
                   ("value_usd", Float 9000.0); ("allocation", Float 0.3) ];
            Dict [ ("token", Str "ETH"); ("amount", Float 1.0);
                   ("value_usd", Float 3000.0); ("allocation", Float 0.1) ] ]);
      ("total_value_usd", Float 32000.0);
      ("portfolio_age_days", Int 45) ].

(** Sample transaction data for MEV analysis *)
Definition transaction_data : value :=
  Dict
    [ ("type", Str "swap");
      ("token_in", Str "SOL");
      ("token_out", Str "USDC");
      ("amount_in", Float 50.0);
      ("expected_amount_out", Float 7500.0);
      ("slippage_tolerance", Float 0.01);
      ("gas_price", Float 0.000005);
      ("mempool_position", Str "pending") ].

(** Sample governance proposal for analysis *)
Definition proposal_data : value :=
  Dict
    [ ("id", Str "PROP-2025-001");
      ("title", Str "Increase Treasury Allocation for Core Development");
      ("description",
        Str "Proposal to allocate 500,000 USDC from the DAO treasury to fund core development team for the next 6 months");
      ("proposer", Str "core-dev-team");
      ("voting_power_required", Int 1000000);
      ("current_support", Float 0.65);
      ("deadline", Str "2025-08-15");
      ("category", Str "treasury_management");
      ("financial_impact",
        Dict [ ("amount_usd", Int 500000);
               ("treasury_percentage", Float 0.033);
               ("duration_months", Int 6) ]) ].

Definition risk_prompt : string :=
  String.concat nl
    [ "";
      "            Analyze the following DeFi portfolio for comprehensive risk assessment:";
      "            ";
      "            Portfolio Data: " +:+ repr portfolio_data;
      "            ";
      "            Please provide a detailed risk analysis including:";
      "            ";
      "            1. **Concentration Risk Assessment**:";
      "               - Token concentration analysis";
      "               - Single point of failure risks";
      "               - Diversification recommendations";
      "            ";
      "            2. **Allocation Efficiency**:";
      "               - Current allocation effectiveness";
      "               - Risk-adjusted return potential";
      "               - Rebalancing recommendations";
      "            ";
      "            3. **Market Risk Analysis**:";
      "               - Correlation risks between assets";
      "               - Market volatility exposure";
      "               - Downside risk estimation";
      "            ";
      "            4. **Liquidity Risk Evaluation**:";
      "               - Exit liquidity assessment";
      "               - Slippage risk on large trades";
      "               - Emergency exit scenarios";
      "            ";
      "            5. **Overall Risk Score**:";
      "               - Provide a risk score from 0 (very safe) to 1 (very risky)";
      "               - Risk level classification (LOW/MEDIUM/HIGH/CRITICAL)";
      "               - Immediate action recommendations";
      "            ";
      "            Format your response with clear sections and actionable insights.";
      "            " ].

Definition mev_prompt : string :=
  String.concat nl
    [ "";
      "            Analyze the following transaction for MEV threats and protection strategies:";
      "            ";
      "            Transaction Data: " +:+ repr transaction_data;
      "            ";
      "            Please provide MEV protection analysis including:";
      "            ";
      "            1. **MEV Threat Detection**:";
      "               - Sandwich attack risk assessment";
      "               - Front-running vulnerability analysis";
      "               - Back-running opportunity evaluation";
      "               ";
      "            2. **Gas Analysis**:";
      "               - Current gas price competitiveness";
      "               - Gas price manipulation risks";
      "               - Optimal gas pricing strategy";
      "               ";
      "            3. **Timing Analysis**:";
      "               - Optimal execution timing";
      "               - Mempool congestion assessment";
      "               - Block position optimization";
      "               ";
      "            4. **Protection Recommendations**:";
      "               - Private mempool usage recommendation";
      "               - Slippage protection adjustments";
      "               - Alternative execution venues";
      "               ";
      "            5. **Risk Score**:";
      "               - MEV vulnerability score (0-1)";
      "               - Threat level (SAFE/CAUTION/ELEVATED/HIGH/CRITICAL)";
      "               - Immediate protection actions needed";
      "            ";
      "            Provide specific actionable recommendations for MEV protection.";
      "            " ].

Definition governance_prompt : string :=
  String.concat nl
    [ "";
      "            Analyze the following DAO governance proposal for comprehensive evaluation:";
      "            ";
      "            Proposal Data: " +:+ repr proposal_data;
      "            ";
      "            Please provide a thorough governance analysis including:";
      "            ";
      "            1. **Economic Impact Assessment**:";
      "               - Financial impact on token holders";
      "               - Treasury sustainability analysis";
      "               - ROI expectations and projections";
      "               ";
      "            2. **Risk-Benefit Analysis**:";
      "               - Implementation risks and challenges";
      "               - Potential unintended consequences";
      "               - Strategic benefits for the DAO";
      "               ";
      "            3. **Technical Feasibility Review**:";
      "               - Implementation complexity";
      "               - Resource requirements";
      "               - Timeline and milestone assessment";
      "               ";
      "            4. **Community Impact Evaluation**:";
      "               - Alignment with community interests";
      "               - Potential community response";
      "               - Long-term governance implications";
      "               ";
      "            5. **Voting Recommendation**:";
      "               - Recommended vote (FOR/AGAINST/ABSTAIN)";
      "               - Confidence level (1-5 scale)";
      "               - Key reasoning points";
      "               - Alternative approaches if applicable";
      "               ";
      "            6. **Strategic Considerations**:";
      "               - Precedent implications";
      "               - Governance health impact";
      "               - Long-term DAO value creation";
      "            ";
      "            Provide a clear recommendation with detailed reasoning.";
      "            " ].

(** What [demonstrate_risk_assessment] prints; the answer of the webhook
    is bound to [result] and never read. *)
Definition demonstrate_risk_assessment (agents : list Agent) : list string :=
  let out := [nl +:+ "📊 Demonstrating Risk Assessment..."] in
  match find_agent_containing "portfolio-risk-analyzer" agents with
  | Some portfolio_agent =>
      match call_webhook portfolio_agent [("prompt", Str risk_prompt)] with
      | Ok _ =>
          (out ++ [ "🔍 Portfolio Risk Analysis Result:";
                    "   Agent: " +:+ agent_id portfolio_agent;
                    "   Analysis: Risk assessment completed" ])%list
      | Raise e => (out ++ ["❌ Risk assessment failed: " +:+ e])%list
      end
  | None => (out ++ ["❌ Portfolio analyzer agent not found"])%list
  end.

(** What [demonstrate_mev_protection] prints. *)
Definition demonstrate_mev_protection (agents : list Agent) : list string :=
  let out := [nl +:+ "⚡ Demonstrating MEV Protection..."] in
  match find_agent_containing "mempool-scanner" agents with
  | Some mempool_agent =>
      match call_webhook mempool_agent [("prompt", Str mev_prompt)] with
      | Ok _ =>
          (out ++ [ "🛡️ MEV Protection Analysis Result:";
                    "   Agent: " +:+ agent_id mempool_agent;
                    "   Analysis: MEV threat assessment completed" ])%list
      | Raise e => (out ++ ["❌ MEV protection analysis failed: " +:+ e])%list
      end
  | None => (out ++ ["❌ Mempool scanner agent not found"])%list
  end.

(** What [demonstrate_governance_advisory] prints. *)
Definition demonstrate_governance_advisory (agents : list Agent) : list string :=
  let out := [nl +:+ "🏛️ Demonstrating Governance Advisory..."] in
  match find_agent_containing "proposal-analyzer" agents with
  | Some proposal_agent =>
      match call_webhook proposal_agent [("prompt", Str governance_prompt)] with
      | Ok _ =>
          (out ++ [ "🗳️ Governance Analysis Result:";
                    "   Agent: " +:+ agent_id proposal_agent;
                    "   Analysis: Proposal evaluation completed" ])%list
      | Raise e => (out ++ ["❌ Governance analysis failed: " +:+ e])%list
      end
  | None => (out ++ ["❌ Proposal analyzer agent not found"])%list
  end.

End Status.

Arguments status_risk_agents {Agent} _ _.
Arguments status_mev_agents {Agent} _ _.
Arguments status_governance_agents {Agent} _ _.
Arguments print_system_status {Agent} _ _.
Arguments find_agent_containing {Agent} _ _ _.
Arguments demonstrate_risk_assessment {Agent Response} _ _ _ _.
Arguments demonstrate_mev_protection {Agent Response} _ _ _ _.
Arguments demonstrate_governance_advisory {Agent Response} _ _ _ _.

(** The back end hands out agents that carry the id they were created
    with. *)
Definition keeps_ids {Agent : Type} (agent_id : Agent -> string) (conn : backend Agent) : Prop :=
  forall bp id name description a,
    Agent_create conn bp id name description = Ok a -> agent_id a = id.

(** A back end whose handles are the ids; it cannot start the sentiment
    monitor and cannot create the coordinator. *)
Definition partial_backend : backend string :=
  {| Agent_create := fun _ id _ _ =>
       if String.eqb id COORDINATOR_AGENT_ID then Raise "backend unavailable" else Ok id;
     Agent_set_state := fun a _ =>
       if String.eqb a "sentiment-monitor" then Raise "cannot start" else Ok tt |}.

(** *** [test_swarm_specialization_coverage]
    (python/tests/test_defi_guardian_swarm.py)

    A failed [assert] raises [AssertionError]. *)

(** [[blueprint.strategy.config["specialization"] for _, _, _, blueprint in agents]] *)
Fixpoint specializations (agents : list agent_entry) : result (list value) :=
  match agents with
  | [] => Ok []
  | e :: rest =>
      bind (item (Dict (strategy_config (strategy (entry_blueprint e)))) "specialization")
        (fun spec => bind (specializations rest) (fun specs => Ok (spec :: specs)))
  end.

(** [any(area in spec for spec in areas)] *)
Fixpoint area_covered (area : string) (areas : list value) : result bool :=
  match areas with
  | [] => Ok false
  | spec :: rest =>
      bind (in_value area spec) (fun found =>
      if found then Ok true else area_covered area rest)
  end.

(** [for area in expected: assert any(area in spec for spec in areas)] *)
Fixpoint assert_covered (expected : list string) (areas : list value) : result unit :=
  match expected with
  | [] => Ok tt
  | area :: rest =>
      bind (area_covered area areas) (fun covered =>
      if covered then assert_covered rest areas else Raise "AssertionError")
  end.

Definition test_swarm_specialization_coverage : result unit :=
  bind (specializations create_risk_management_agents) (fun risk_areas =>
  bind (assert_covered ["portfolio"; "liquidity"; "volatility"] risk_areas) (fun _ =>
  bind (specializations create_mev_protection_agents) (fun mev_areas =>
  bind (assert_covered ["mempool"; "sandwich"; "optimization"] mev_areas) (fun _ =>
  bind (specializations create_governance_agents) (fun governance_areas =>
  assert_covered ["proposal"; "sentiment"; "voting"] governance_areas))))).

(** The entry that [create_and_deploy_agents] creates under [id], and
    the agent the back end returned for it. *)
Definition lookup_entry (id : string) : option agent_entry :=
  List.find (fun e => String.eqb (entry_id e) id) all_entries.

Definition created_as {Agent : Type} (conn : backend Agent) (id : string) : option Agent :=
  match lookup_entry id with
  | Some e => succeeded conn e
  | None => None
  end.

(** An entry of the listing that makes the condition of the clean-up
    loop raise: not a dictionary, or a dictionary whose id is a number or
    a boolean. *)
Definition malformed_info (agent_info : value) : Prop :=
  match agent_info with
  | Dict d =>
      match default (Str "") (get "id" d) with
      | Int _ | Float _ | Bool _ => True
      | _ => False
      end
  | _ => True
  end.

(** What a call shows of its result when the value is not looked at:
    whether it raised, and the text of the exception. *)
Definition raised {A : Type} (r : result A) : option string :=
  match r with
  | Ok _ => None
  | Raise e => Some e
  end.

(** Two webhooks for a sample run: each answers every agent but the
    proposal analyzer, with a different answer. *)
Definition cautious_webhook (agent : string) (payload : dict) : result string :=
  if String.eqb agent "proposal-analyzer" then Raise "timeout"
  else Ok "EMERGENCY_STOP now".

Definition relaxed_webhook (agent : string) (payload : dict) : result string :=
  if String.eqb agent "proposal-analyzer" then Raise "timeout"
  else Ok "nothing to do".

(** *** What [demonstrate_coordination] hands over and what it emits *)








End Swarm.

(* ===================================================================== *)
(** ** The Solana integration script *)
(* ===================================================================== *)

Module Solana.

Import Py.

(** Solana DEX liquidity and price data *)
Record SolanaDEXData := mkDEXData {
  pool_address : string;
  token_a : string;
  token_b : string;
  liquidity_usd : Q;
  price_impact : Q;
  volume_24h : Q
}.

Record MockAsyncClient := mkClient { endpoint : string }.

Definition SOLANA_AVAILABLE : bool := true.

Record SolanaOnchainAgent := mkAgent {
  rpc_endpoint : string;
  client : option MockAsyncClient;
  mock_pools : list SolanaDEXData
}.

Definition default_rpc_endpoint : string := "https://api.mainnet-beta.solana.com".

(** [SolanaOnchainAgent.__init__] *)
Definition init (rpc_endpoint : string) : SolanaOnchainAgent :=
  {| rpc_endpoint := rpc_endpoint;
     client := if SOLANA_AVAILABLE then Some (mkClient rpc_endpoint) else None;
     mock_pools :=
       [ mkDEXData "9WzDXwBbmkg8ZTbNMqUxvQRAyrZzDsGYdLVL9zYtAWWM" "SOL" "USDC"
           1250000.50 0.02 850000.25;
         mkDEXData "2wT8Yq49kHgDzXuPxZSaeLaH1qbmGXtEyPy64bL7aD3c" "SOL" "RAY"
           890000.75 0.15 450000.80 ] |}.

(** The [for pool in self.mock_pools] loop: the first pool whose address
    is the queried one. *)
Fixpoint find_pool (pools : list SolanaDEXData) (address : string) : option SolanaDEXData :=
  match pools with
  | [] => None
  | pool :: rest =>
      if String.eqb (pool_address pool) address then Some pool else find_pool rest address
  end.

(** Default mock pool *)
Definition default_pool (address : string) : SolanaDEXData :=
  mkDEXData address "SOL" "USDC" 950000.30 0.08 650000.40.

(** [get_dex_pool_data]; the declared return type is
    [Optional[SolanaDEXData]]. *)
Definition get_dex_pool_data (self : SolanaOnchainAgent) (address : string)
  : option SolanaDEXData :=
  match find_pool (mock_pools self) address with
  | Some pool => Some pool
  | None => Some (default_pool address)
  end.

(** [check_transaction_risk]; [now] is the text of
    [datetime.utcnow().isoformat()] at the time of the call. *)
Definition check_transaction_risk (self : SolanaOnchainAgent)
    (transaction_signature : string) (now : string) : dict :=
  [ ("signature", Str transaction_signature);
    ("mev_detected", Bool false);
    ("sandwich_attack", Bool false);
    ("frontrunning", Bool false);
    ("price_impact", Float 0.02);
    ("risk_level", Str "LOW");
    ("confidence", Float 0.95);
    ("analysis_timestamp", Str now) ].

(** *** Wallets *)

(** Solana wallet information structure *)
Record SolanaWalletInfo := mkWalletInfo {
  address : string;
  sol_balance : Q;
  token_accounts : list dict;
  recent_transactions : list dict;
  risk_score : Q
}.

Record MockPublicKey := mkPublicKey { key_address : string }.

(** [MockAsyncClient.get_balance] *)
Definition get_balance (self : MockAsyncClient) (pubkey : MockPublicKey) : value :=
  Dict [("result", Dict [("value", Int 25750000000)])].

(** [v / d] for a float [d]: numbers divide, anything else raises
    [TypeError]. *)
Definition true_div (v : value) (d : Q) : Swarm.result Q :=
  match v with
  | Int z => Swarm.Ok (inject_Z z / d)%Q
  | Float q => Swarm.Ok (q / d)%Q
  | Bool b => Swarm.Ok ((if b then 1 else 0) / d)%Q
  | _ => Swarm.Raise "unsupported operand type(s) for /"
  end.

Definition known_tokens : list string := ["USDC"; "USDT"; "RAY"; "SRM"; "FIDA"].

(** [account.get("symbol", "UNKNOWN") not in known_tokens]; membership
    in a set hashes the value, and a list or a dictionary is not
    hashable. *)
Definition symbol_unknown (account : dict) : Swarm.result bool :=
  match default (Str "UNKNOWN") (get "symbol" account) with
  | Str s => Swarm.Ok (negb (existsb (String.eqb s) known_tokens))
  | List _ => Swarm.Raise "unhashable type: 'list'"
  | Dict _ => Swarm.Raise "unhashable type: 'dict'"
  | _ => Swarm.Ok true
  end.

(** The [for account in token_accounts] loop: unknown tokens increase
    risk. *)
Fixpoint add_unknown_tokens (risk_score : Q) (token_accounts : list dict) : Swarm.result Q :=
  match token_accounts with
  | [] => Swarm.Ok risk_score
  | account :: rest =>
      Swarm.bind (symbol_unknown account) (fun unknown =>
      add_unknown_tokens (if unknown then risk_score + 0.05 else risk_score)%Q rest)
  end.

(** Calculate wallet risk score based on holdings and activity

    The balance and the score are exact rationals here: a balance that
    is not a number and the rounding of the sums are outside this model,
    so only what depends on neither is proved of it (when the call
    raises, and the score of the wallets [get_wallet_info] builds, whose
    sums are exact). *)
Definition _calculate_wallet_risk (sol_balance : Q) (token_accounts : list dict)
  : Swarm.result Q :=
  let risk_score := 0.0%Q in
  let risk_score :=
    if float_lt sol_balance 1.0 then (risk_score + 0.3)%Q
    else if float_lt sol_balance 5.0 then (risk_score + 0.1)%Q
    else risk_score in
  let risk_score :=
    if Nat.ltb 20 (length token_accounts) then (risk_score + 0.2)%Q else risk_score in
  Swarm.bind (add_unknown_tokens risk_score token_accounts) (fun risk_score =>
  Swarm.Ok (if float_lt 1.0 risk_score then 1.0%Q else risk_score)).

(** The mock wallet at the end of [get_wallet_info]. *)
Definition mock_wallet (wallet_address : string) : SolanaWalletInfo :=
  {| address := wallet_address;
     sol_balance := 25.75;
     token_accounts :=
       [ [ ("mint", Str "EPjFWdd5AufqSSqeM2qN1xzybapC8G4wEGGkZwyTDt1v");
           ("amount", Str "1000.50"); ("symbol", Str "USDC") ];
         [ ("mint", Str "4k3Dyjzvzp8eMZWUXbBCjEvwSkkk59S5iCNLY3QrkX6R");
           ("amount", Str "500.25"); ("symbol", Str "RAY") ] ];
     recent_transactions :=
       [ [ ("signature", Str "5VfYKR7...ABC123"); ("type", Str "swap");
           ("amount", Float 10.5); ("timestamp", Str "2025-08-01T10:30:00Z") ];
         [ ("signature", Str "3HdKmP9...DEF456"); ("type", Str "transfer");
           ("amount", Float 5.25); ("timestamp", Str "2025-08-01T09:15:00Z") ] ];
     risk_score := 0.25 |}.

(** Python's slicing and number formatting, which only shape what is
    printed: [slice_to n s] is [s[:n]], [slice_last n s] is [s[-n:]],
    [format_float spec x] is [format(x, spec)]. *)
Section Printing.

Variable slice_to : nat -> string -> string.
Variable slice_last : nat -> string -> string.
Variable format_float : string -> Q -> string.

(** [get_wallet_info]: the wallet information and what is printed. *)
Definition get_wallet_info (self : SolanaOnchainAgent) (wallet_address : string)
  : SolanaWalletInfo * list string :=
  let mock (printed : list string) :=
    (mock_wallet wallet_address,
     (printed ++ ["📊 Using mock data for wallet: " +:+ slice_to 8 wallet_address +:+ "..."])%list) in
  match (if SOLANA_AVAILABLE then client self else None) with
  | Some the_client =>
      let pubkey := mkPublicKey wallet_address in
      let balance_resp := get_balance the_client pubkey in
      match Swarm.bind (Swarm.item balance_resp "result") (fun r =>
            Swarm.bind (Swarm.item r "value") (fun v => true_div v 1e9)) with
      | Swarm.Ok balance =>
          let accounts : list dict := [] in
          let printed :=
            ["✅ Retrieved onchain data for " +:+ slice_to 8 wallet_address +:+ "..."] in
          match _calculate_wallet_risk balance accounts with
          | Swarm.Ok risk =>
              ({| address := wallet_address;
                  sol_balance := balance;
                  token_accounts := accounts;
                  recent_transactions := [];
                  risk_score := risk |}, printed)
          | Swarm.Raise e =>
              mock (printed ++ ["⚠️ Solana API error (using mock): " +:+ e])%list
          end
      | Swarm.Raise e => mock ["⚠️ Solana API error (using mock): " +:+ e]
      end
  | None => mock []
  end.

(** Enhanced DeFi Guardian with Solana onchain integration. *)
Record SolanaIntegratedDeFiGuardian := mkGuardian {
  solana_agent : SolanaOnchainAgent;
  monitored_wallets : list SolanaWalletInfo;
  monitored_pools : list SolanaDEXData
}.

(** [SolanaIntegratedDeFiGuardian.__init__] *)
Definition new_guardian : SolanaIntegratedDeFiGuardian :=
  {| solana_agent := init default_rpc_endpoint;
     monitored_wallets := [];
     monitored_pools := [] |}.

(** Add wallet to monitoring list *)
Definition add_wallet_monitoring (self : SolanaIntegratedDeFiGuardian)
    (wallet_address : string) : SolanaIntegratedDeFiGuardian * list string :=
  let (wallet_info, printed) := get_wallet_info (solana_agent self) wallet_address in
  ({| solana_agent := solana_agent self;
      monitored_wallets := (monitored_wallets self ++ [wallet_info])%list;
      monitored_pools := monitored_pools self |},
   (printed ++
    [ "✅ Added wallet monitoring: " +:+ slice_to 8 wallet_address +:+ "..."
        +:+ slice_last 8 wallet_address;
      "   SOL Balance: " +:+ format_float ".2f" (sol_balance wallet_info);
      "   Token Accounts: " +:+ Swarm.str_of_nat (length (token_accounts wallet_info));
      "   Risk Score: " +:+ format_float ".2f" (risk_score wallet_info) ])%list).

(** One iteration of the loop of [monitor_dex_pools]; a [SolanaDEXData]
    object is true in [if pool_data:]. *)
Definition monitor_dex_pool (state : SolanaIntegratedDeFiGuardian * list string)
    (pool_address : string) : SolanaIntegratedDeFiGuardian * list string :=
  let (self, printed) := state in
  match get_dex_pool_data (solana_agent self) pool_address with
  | Some pool_data =>
      ({| solana_agent := solana_agent self;
          monitored_wallets := monitored_wallets self;
          monitored_pools := (monitored_pools self ++ [pool_data])%list |},
       (printed ++
        [ "✅ Monitoring DEX Pool: " +:+ token_a pool_data +:+ "/" +:+ token_b pool_data;
          "   Liquidity: $" +:+ format_float ",.2f" (liquidity_usd pool_data);
          "   Price Impact: " +:+ format_float ".2%" (price_impact pool_data);
          "   24h Volume: $" +:+ format_float ",.2f" (volume_24h pool_data) ])%list)
  | None => (self, printed)
  end.

(** Monitor DEX pools for liquidity and price impact *)
Definition monitor_dex_pools (self : SolanaIntegratedDeFiGuardian)
    (pool_addresses : list string) : SolanaIntegratedDeFiGuardian * list string :=
  fold_left monitor_dex_pool pool_addresses (self, []).

End Printing.

(** The account's symbol is a list or a dictionary. *)
Definition unhashable_symbol (account : dict) : Prop :=
  match get "symbol" account with
  | Some (List _) | Some (Dict _) => True
  | _ => False
  end.

End Solana.

(* ===================================================================== *)
(** ** The coordination policy *)
(* ===================================================================== *)

Module Coordinator.

Local Open Scope Q_scope.

(** *** Data model (spec, section 3) *)

(** Modelled from the spec: the protection domain of a detector,
    [enum{RISK, MEV, GOVERNANCE}] (the sources have no such type). *)
Inductive Domain := RISK | MEV | GOVERNANCE.

(** Modelled from the spec: the canonical severity,
    [ordered enum{LOW, MEDIUM, HIGH, CRITICAL}], in increasing order. *)
Inductive Severity := LOW | MEDIUM | HIGH | CRITICAL.

(** Modelled from the spec: [ActionKind], in the order of the spec's
    enumeration (the blueprint of the coordinator lists the same six
    names in [decision_types]). *)
Inductive ActionKind :=
| EMERGENCY_STOP
| BLOCK_TRANSACTION
| REBALANCE_PORTFOLIO
| ALERT_USER
| VOTE_PROPOSAL
| UPDATE_STRATEGY.

#[global] Instance Domain_eq_dec : EqDecision Domain.
Proof. solve_decision. Defined.
#[global] Instance Severity_eq_dec : EqDecision Severity.
Proof. solve_decision. Defined.
#[global] Instance ActionKind_eq_dec : EqDecision ActionKind.
Proof. solve_decision. Defined.

(** Every action kind, in the order of the enumeration. *)
Definition all_kinds : list ActionKind :=
  [EMERGENCY_STOP; BLOCK_TRANSACTION; REBALANCE_PORTFOLIO;
   ALERT_USER; VOTE_PROPOSAL; UPDATE_STRATEGY].

(** Modelled from the spec: [severity_rank] maps CRITICAL=4 ... LOW=1. *)
Definition severity_rank (s : Severity) : nat :=
  match s with
  | LOW => 1
  | MEDIUM => 2
  | HIGH => 3
  | CRITICAL => 4
  end.

(** The greater of two severities. *)
Definition severity_max (a b : Severity) : Severity :=
  if Nat.leb (severity_rank a) (severity_rank b) then b else a.

(** CRITICAL or HIGH. *)
Definition is_high (s : Severity) : bool :=
  match s with
  | HIGH | CRITICAL => true
  | _ => false
  end.

(** Modelled from the spec: a signal id is derived from
    [(detector_id, snapshot_id)]; the pair itself is kept. *)
Definition SignalId : Type := (string * string)%type.

(** Modelled from the spec: a [Detector], without its [evaluate]
    function (the detectors run behind the [juliaos] agent runtime, which
    is not among the sources; their findings are inputs here). *)
Record Detector := mkDetector {
  detector_id : string;
  detector_domain : Domain;
  specialization : string
}.

(** Modelled from the spec: the [RawFinding] a detector's [evaluate]
    returns.  The spec asks for a severity hint and a rationale at
    least; the confidence, the proposed actions, the snapshot and the
    time are what [normalize] reads off to build a [Signal]. *)
Record RawFinding := mkRaw {
  severity_hint : string;
  rationale : string;
  raw_confidence : Q;
  raw_actions : list ActionKind;
  snapshot_id : string;
  found_at : Z
}.

(** Modelled from the spec: the canonical [Signal]. *)
Record Signal := mkSignal {
  sig_id : SignalId;
  domain : Domain;
  severity : Severity;
  confidence : Q;
  proposed_actions : list ActionKind;
  timestamp : Z
}.

(** Modelled from the spec: [confidence] is a float in [0,1]. *)
Definition confidence_in_range (s : Signal) : Prop :=
  0 <= confidence s /\ confidence s <= 1.

(** Modelled from the spec: one entry of an [ActionPlan],
    [(action, priority_rank, justification: set of Signal ids)]. *)
Record PlanEntry := mkEntry {
  action : ActionKind;
  priority_rank : nat;
  justification : gset SignalId
}.

(** Modelled from the spec: the plan handed to the executor, the
    ordered entries plus the [advisory] flag (section 6). *)
Record ActionPlan := mkPlan {
  entries : list PlanEntry;
  advisory : bool
}.

(** *** Configuration surface (spec, section 6) *)

(** Modelled from the spec: the recognised options
    [suppression_threshold], [consensus_threshold],
    [domain_priority_weights] and [conflict_precedence], and the fixed
    severity vocabulary of each detector domain, which the spec mentions
    without giving it. *)
Record Config := mkConfig {
  suppression_threshold : Q;
  consensus_threshold : Q;
  domain_priority_weights : Domain -> Z;
  conflict_precedence : ActionKind -> list ActionKind;
  severity_table : Domain -> string -> option Severity
}.

(** Modelled from the spec: default weights MEV > RISK > GOVERNANCE. *)
Definition default_weights (d : Domain) : Z :=
  match d with
  | MEV => 3
  | RISK => 2
  | GOVERNANCE => 1
  end%Z.

(** Modelled from the spec: a sample conflict table.  The spec makes
    [conflict_precedence] a configuration option and names one pair as
    an example, EMERGENCY_STOP over REBALANCE_PORTFOLIO; the sample
    holds that pair only. *)
Definition default_precedence (k : ActionKind) : list ActionKind :=
  match k with
  | EMERGENCY_STOP => [REBALANCE_PORTFOLIO]
  | _ => []
  end.

(** A sample severity table: the canonical names, in every domain. *)
Definition canonical_table (_ : Domain) (hint : string) : option Severity :=
  if String.eqb hint "LOW" then Some LOW
  else if String.eqb hint "MEDIUM" then Some MEDIUM
  else if String.eqb hint "HIGH" then Some HIGH
  else if String.eqb hint "CRITICAL" then Some CRITICAL
  else None.

(** The consensus threshold that [create_coordinator_agent] puts in the
    strategy configuration (0.7). *)
Definition default_consensus_threshold : Q :=
  match Swarm.configured_consensus_threshold with
  | Some q => q
  | None => 0.7
  end.

(** Modelled from the spec: the defaults, [suppression_threshold] 0.5
    and [consensus_threshold] 0.7. *)
Definition default_config : Config :=
  {| suppression_threshold := 0.5;
     consensus_threshold := default_consensus_threshold;
     domain_priority_weights := default_weights;
     conflict_precedence := default_precedence;
     severity_table := canonical_table |}.

(** The configuration [cfg] with another consensus threshold. *)
Definition with_consensus_threshold (cfg : Config) (t : Q) : Config :=
  {| suppression_threshold := suppression_threshold cfg;
     consensus_threshold := t;
     domain_priority_weights := domain_priority_weights cfg;
     conflict_precedence := conflict_precedence cfg;
     severity_table := severity_table cfg |}.

(** *** Signal normaliser (spec, section 4.2) *)

(** Modelled from the spec: the confidence penalty of an unmapped
    severity, 0.1. *)
Definition confidence_penalty : Q := 0.1.

(** Modelled from the spec: the severity of the lookup table, or, for
    an unmapped raw severity, MEDIUM with the confidence penalty
    ([normalize] is not among the sources). *)
Definition canonical (cfg : Config) (raw : RawFinding) (det : Detector) : Severity * Q :=
  match severity_table cfg (detector_domain det) (severity_hint raw) with
  | Some sev => (sev, raw_confidence raw)
  | None => (MEDIUM, raw_confidence raw - confidence_penalty)
  end.

(** [c < threshold] as a boolean. *)
Definition below (c threshold : Q) : bool := negb (Qle_bool threshold c).

(** Modelled from the spec: [normalize(raw, detector) -> Signal | null]
    ([normalize] is not among the sources).  The threshold is applied to
    the confidence the signal would carry, so that no signal below it
    reaches the coordinator (section 3). *)
Definition normalize (cfg : Config) (raw : RawFinding) (det : Detector) : option Signal :=
  let (sev, conf) := canonical cfg raw det in
  if below conf (suppression_threshold cfg) then None
  else Some {| sig_id := (detector_id det, snapshot_id raw);
               domain := detector_domain det;
               severity := sev;
               confidence := conf;
               proposed_actions := raw_actions raw;
               timestamp := found_at raw |}.

(** Modelled from the spec: the signals that reach the coordinator in
    one cycle, the findings that [normalize] does not drop. *)
Definition cycle_signals (cfg : Config) (findings : list (Detector * RawFinding))
  : list Signal :=
  omap (fun f => normalize cfg f.2 f.1) findings.

(** *** Coordinator (spec, section 4.3)

    The scripts only send a scenario to the coordinator agent's webhook
    ([Swarm.demonstrate_coordination]); the five steps below follow the
    spec. *)

(** Modelled from the spec: a merged recommendation, with what the
    priority key reads. *)
Record Recommendation := mkRec {
  rec_action : ActionKind;
  rec_severity : Severity;
  rec_confidence : Q;
  rec_weight : Z;
  rec_first_seen : Z;
  rec_justification : gset SignalId
}.

(** Modelled from the spec: the signals that propose [k], those whose
    [proposed_actions] contain it. *)
Definition proposers (k : ActionKind) (signals : list Signal) : list Signal :=
  filter (fun s => k ∈ proposed_actions s) signals.

(** [prod (1 - c_i)]: the chance that every source is wrong. *)
Definition miss_product (cs : list Q) : Q :=
  fold_right (fun c acc => (1 - c) * acc) 1 cs.

(** Modelled from the spec: [confidence = 1 - prod (1 - c_i)] over the
    merged confidences (probabilistic OR). *)
Definition combine_confidence (cs : list Q) : Q :=
  1 - miss_product cs.

(** Modelled from the spec: the same formula on binary64 floats, for
    the numeric check of section 8. *)
Definition combine_confidence_binary64 (cs : list float) : float :=
  (1 - fold_right (fun c acc => (1 - c) * acc) 1 cs)%float.

(** Modelled from the spec: [severity = max of inputs]. *)
Definition max_severity (l : list Severity) : Severity :=
  fold_right severity_max LOW l.

(** Modelled from the spec: step 1 for one action kind.  All the
    signals of the cycle that propose [k] are merged into one
    recommendation, whatever their domain, as the plan invariant (no two
    entries with the same [ActionKind]) requires.  Where the spec leaves
    the domain weight and the timestamp of a merged recommendation open,
    it carries the highest weight and the earliest timestamp of its
    sources. *)
Definition merge_kind (cfg : Config) (signals : list Signal) (k : ActionKind)
  : option Recommendation :=
  match proposers k signals with
  | [] => None
  | s :: rest =>
      Some {| rec_action := k;
              rec_severity := max_severity (severity <$> s :: rest);
              rec_confidence := combine_confidence (confidence <$> s :: rest);
              rec_weight :=
                fold_right Z.max (domain_priority_weights cfg (domain s))
                  ((fun x => domain_priority_weights cfg (domain x)) <$> rest);
              rec_first_seen := fold_right Z.min (timestamp s) (timestamp <$> rest);
              rec_justification := list_to_set (sig_id <$> s :: rest) |}
  end.

(** Modelled from the spec: step 1, merge duplicates. *)
Definition merge (cfg : Config) (signals : list Signal) : list Recommendation :=
  omap (merge_kind cfg signals) all_kinds.

(** Lexicographic combination of comparisons. *)
Definition lexi (c : comparison) (next : comparison) : comparison :=
  match c with
  | Eq => next
  | _ => c
  end.

(** Modelled from the spec: the priority key [(severity_rank desc,
    confidence desc, domain_priority_weight desc)], ties broken by the
    earliest timestamp; [Lt] means that [a] goes first. *)
Definition key_compare (a b : Recommendation) : comparison :=
  lexi (Nat.compare (severity_rank (rec_severity b)) (severity_rank (rec_severity a)))
 (lexi (Qcompare (rec_confidence b) (rec_confidence a))
 (lexi (Z.compare (rec_weight b) (rec_weight a))
       (Z.compare (rec_first_seen a) (rec_first_seen b)))).

(** [a] goes strictly before [b]. *)
Definition outranks (a b : Recommendation) : bool :=
  match key_compare a b with
  | Lt => true
  | _ => false
  end.

(** Stable insertion into a ranked list. *)
Fixpoint insert_ranked (r : Recommendation) (l : list Recommendation) : list Recommendation :=
  match l with
  | [] => [r]
  | x :: rest => if outranks x r then x :: insert_ranked r rest else r :: x :: rest
  end.

(** Modelled from the spec: step 2, rank (a stable insertion sort on the
    priority key). *)
Definition rank (recs : list Recommendation) : list Recommendation :=
  fold_right insert_ranked [] recs.

(** Modelled from the spec: [a] supersedes [b] in [conflict_precedence]
    (a mapping from an [ActionKind] to the kinds it supersedes). *)
Definition supersedes (cfg : Config) (a b : ActionKind) : Prop :=
  b ∈ conflict_precedence cfg a.

#[global] Instance supersedes_dec cfg a b : Decision (supersedes cfg a b).
Proof. unfold supersedes. apply _. Defined.

(** Modelled from the spec: [r] is cancelled by a recommendation of the
    ranked list. *)
Definition superseded (cfg : Config) (ranked : list Recommendation) (r : Recommendation) : Prop :=
  Exists (fun s => supersedes cfg (rec_action s) (rec_action r)) ranked.

#[global] Instance superseded_dec cfg ranked r : Decision (superseded cfg ranked r).
Proof. unfold superseded. apply _. Defined.

(** The justifications of the recommendations that [r] cancels. *)
Definition dropped_justifications (cfg : Config) (ranked : list Recommendation)
    (r : Recommendation) : gset SignalId :=
  ⋃ (rec_justification <$>
       filter (fun d => supersedes cfg (rec_action r) (rec_action d)) ranked).

(** Modelled from the spec: the justification signals of a dropped
    action are attached to the surviving action's justification. *)
Definition attach (cfg : Config) (ranked : list Recommendation) (r : Recommendation)
  : Recommendation :=
  {| rec_action := rec_action r;
     rec_severity := rec_severity r;
     rec_confidence := rec_confidence r;
     rec_weight := rec_weight r;
     rec_first_seen := rec_first_seen r;
     rec_justification := rec_justification r ∪ dropped_justifications cfg ranked r |}.

(** Modelled from the spec: step 3, resolve conflicts, checked after
    ranking.  The action that the precedence table makes the lower one
    is dropped, not merged. *)
Definition resolve (cfg : Config) (ranked : list Recommendation) : list Recommendation :=
  attach cfg ranked <$> filter (fun r => ¬ superseded cfg ranked r) ranked.

(** The recommendations that survive steps 1 to 3, in rank order. *)
Definition surviving (cfg : Config) (signals : list Signal) : list Recommendation :=
  resolve cfg (rank (merge cfg signals)).

(** Modelled from the spec: step 4, emit, numbered by final rank
    starting at 1. *)
Definition emit (recs : list Recommendation) : list PlanEntry :=
  imap (fun i r => {| action := rec_action r;
                      priority_rank := S i;
                      justification := rec_justification r |}) recs.

(** Modelled from the spec: the highest-ranked CRITICAL or HIGH item,
    with its position. *)
Definition top_high_item (recs : list Recommendation) : option (nat * Recommendation) :=
  list_find (fun r => is_high (rec_severity r) = true) recs.

(** Modelled from the spec: step 5, the consensus gate; [true] flags
    the plan as advisory.  A plan without a CRITICAL or HIGH item has no
    item below the threshold and is not advisory. *)
Definition consensus_gate (cfg : Config) (recs : list Recommendation) : bool :=
  match top_high_item recs with
  | Some (_, r) => below (rec_confidence r) (consensus_threshold cfg)
  | None => false
  end.

(** Modelled from the spec: the coordinator, from the signals of a
    cycle to its [ActionPlan]. *)
Definition coordinate (cfg : Config) (signals : list Signal) : ActionPlan :=
  let recs := surviving cfg signals in
  {| entries := emit recs; advisory := consensus_gate cfg recs |}.

(** Modelled from the spec: one evaluation cycle, normalise the
    findings, then coordinate. *)
Definition run_cycle (cfg : Config) (findings : list (Detector * RawFinding)) : ActionPlan :=
  coordinate cfg (cycle_signals cfg findings).

(** Every id of the justification is the id of a signal of the cycle. *)
Definition justified_by (signals : list Signal) (r : Recommendation) : Prop :=
  forall id, id ∈ rec_justification r -> exists s, s ∈ signals /\ sig_id s = id.

(** *** Fixtures (spec, section 8) *)

(** Two signals for the same action, with confidences 0.6 and 0.5. *)
Definition alert_signal_a : Signal :=
  mkSignal ("portfolio-risk-analyzer", "snapshot-1") RISK HIGH 0.6 [ALERT_USER] 1.

Definition alert_signal_b : Signal :=
  mkSignal ("liquidity-monitor", "snapshot-1") RISK MEDIUM 0.5 [ALERT_USER] 2.

Definition portfolio_detector : Detector :=
  mkDetector "portfolio-risk-analyzer" RISK "portfolio_risk_assessment".

(** A finding below the default suppression threshold. *)
Definition weak_finding : RawFinding :=
  mkRaw "HIGH" "concentration slightly above target" 0.3 [REBALANCE_PORTFOLIO]
    "snapshot-1" 1.

End Coordinator.


(* ===================================================================== *)
(** ** Properties of the swarm script *)
(* ===================================================================== *)

Module SwarmProps.

Import Py Swarm.

(** C8: each of the three factories returns exactly three
    [(id, name, description, blueprint)] tuples, and the nine ids
    together with the coordinator id "defi-coordinator-agent" are
    pairwise distinct. *)
Theorem agent_ids_unique :
  length create_risk_management_agents = 3
  /\ length create_mev_protection_agents = 3
  /\ length create_governance_agents = 3
  /\ all_agent_ids =
       (map entry_id create_risk_management_agents
        ++ map entry_id create_mev_protection_agents
        ++ map entry_id create_governance_agents
        ++ ["defi-coordinator-agent"])%list
  /\ NoDup all_agent_ids.
Proof.
  repeat split; try reflexivity.
  apply (bool_decide_unpack _). vm_compute. exact I.
Qed.

Section Deploy.

Context {Agent : Type} (conn : backend Agent).

Lemma try_deploy_agents bp id name description ok_label fail_label st :
  (try_deploy conn bp id name description ok_label fail_label st).1 =
  (st.1 ++ match create_and_start conn bp id name description with
           | Ok a => [a]
           | Raise _ => []
           end)%list.
Proof.
  unfold try_deploy.
  destruct (create_and_start conn bp id name description); simpl.
  - reflexivity.
  - symmetry. apply app_nil_r.
Qed.

Lemma deploy_entry_agents st e :
  (deploy_entry conn st e).1 = (st.1 ++ option_list (succeeded conn e))%list.
Proof.
  unfold deploy_entry, succeeded, attempt. rewrite try_deploy_agents.
  destruct (create_and_start _ _ _ _ _); reflexivity.
Qed.

(** A [for] loop appends the agents of the successful iterations, in
    order, whatever the other iterations do. *)
Lemma deploy_loop_agents es st :
  (fold_left (deploy_entry conn) es st).1 = (st.1 ++ omap (succeeded conn) es)%list.
Proof.
  revert st. induction es as [|e es IH]; intros st; simpl.
  - symmetry. apply app_nil_r.
  - rewrite IH, deploy_entry_agents. rewrite <- app_assoc. f_equal.
    destruct (succeeded conn e); reflexivity.
Qed.

(** Printing never removes a line. *)
Lemma deploy_entry_output_mono st e line :
  line ∈ st.2 -> line ∈ (deploy_entry conn st e).2.
Proof.
  intros Hin. unfold deploy_entry, try_deploy.
  destruct (create_and_start _ _ _ _ _); simpl; apply elem_of_app; left; exact Hin.
Qed.

Lemma deploy_loop_output_mono es st line :
  line ∈ st.2 -> line ∈ (fold_left (deploy_entry conn) es st).2.
Proof.
  revert st. induction es as [|e es IH]; intros st Hin; simpl.
  - exact Hin.
  - apply IH, deploy_entry_output_mono, Hin.
Qed.

Lemma deploy_entry_reports st e err :
  attempt conn e = Raise err ->
  failure_line (entry_name e) err ∈ (deploy_entry conn st e).2.
Proof.
  unfold attempt, deploy_entry, try_deploy. intros ->. simpl.
  apply elem_of_app. right. apply list_elem_of_singleton. reflexivity.
Qed.

Lemma deploy_loop_reports es st e err :
  e ∈ es -> attempt conn e = Raise err ->
  failure_line (entry_name e) err ∈ (fold_left (deploy_entry conn) es st).2.
Proof.
  revert st. induction es as [|x es IH]; intros st Hin Herr.
  - inversion Hin.
  - simpl. apply elem_of_cons in Hin as [-> | Hin].
    + apply deploy_loop_output_mono, deploy_entry_reports, Herr.
    + apply IH; assumption.
Qed.

Lemma print_mono line l st : line ∈ st.2 -> line ∈ (print Agent l st).2.
Proof. intros H. simpl. apply elem_of_app. left. exact H. Qed.

Lemma try_deploy_mono bp id name description l1 l2 st line :
  line ∈ st.2 -> line ∈ (try_deploy conn bp id name description l1 l2 st).2.
Proof.
  intros H. unfold try_deploy.
  destruct (create_and_start _ _ _ _ _); simpl; apply elem_of_app; left; exact H.
Qed.

Lemma print_agents l st : (print Agent l st).1 = st.1.
Proof. reflexivity. Qed.

Lemma returned_agents :
  create_and_deploy_agents conn = omap (succeeded conn) all_entries.
Proof.
  unfold create_and_deploy_agents, create_and_deploy_agents_state, all_entries.
  rewrite try_deploy_agents.
  repeat (rewrite print_agents || rewrite deploy_loop_agents).
  rewrite !omap_app, <- !app_assoc. simpl fst. simpl app at 1.
  do 3 f_equal.
  unfold succeeded, attempt, coordinator_entry. simpl.
  destruct (create_and_start _ _ _ _ _); reflexivity.
Qed.

Lemma failures_reported e err :
  e ∈ all_entries -> attempt conn e = Raise err ->
  failure_line (printed_name e) err ∈ create_and_deploy_output conn.
Proof.
  unfold all_entries, create_and_deploy_output, create_and_deploy_agents_state.
  rewrite !elem_of_app. intros [Hin | [Hin | [Hin | Hin]]] Herr.
  - apply try_deploy_mono, print_mono, deploy_loop_output_mono, print_mono,
      deploy_loop_output_mono, print_mono.
    replace (printed_name e) with (entry_name e).
    + apply deploy_loop_reports; assumption.
    + revert Hin. unfold create_risk_management_agents.
      rewrite !elem_of_cons. intros [-> | [-> | [-> | H]]]; try reflexivity. inversion H.
  - apply try_deploy_mono, print_mono, deploy_loop_output_mono, print_mono.
    replace (printed_name e) with (entry_name e).
    + apply deploy_loop_reports; assumption.
    + revert Hin. unfold create_mev_protection_agents.
      rewrite !elem_of_cons. intros [-> | [-> | [-> | H]]]; try reflexivity. inversion H.
  - apply try_deploy_mono, print_mono.
    replace (printed_name e) with (entry_name e).
    + apply deploy_loop_reports; assumption.
    + revert Hin. unfold create_governance_agents.
      rewrite !elem_of_cons. intros [-> | [-> | [-> | H]]]; try reflexivity. inversion H.
  - apply list_elem_of_singleton in Hin. subst e.
    change (create_and_start conn create_coordinator_agent COORDINATOR_AGENT_ID
              "DeFi Guardian Coordinator"
              "Central coordinator for all DeFi Guardian swarms" = Raise err) in Herr.
    unfold try_deploy at 1. rewrite Herr. simpl.
    apply elem_of_app. right. apply list_elem_of_singleton. reflexivity.
Qed.

End Deploy.

(** C6 (as the code has it): every failure of an agent (an exception
    raised by [Agent.create] or [set_state]) is caught and printed with
    the exception text, and the agent is left out of the returned list;
    it never prevents the other agents of the same swarm, of the other
    swarms, or the coordinator from being created and returned: the
    returned list is exactly the list of the successful attempts, in
    order. *)
Theorem deploy_failures_isolated {Agent : Type} (conn : backend Agent) :
  create_and_deploy_agents conn = omap (succeeded conn) all_entries
  /\ (forall e a, e ∈ all_entries -> attempt conn e = Ok a ->
        a ∈ create_and_deploy_agents conn)
  /\ (forall e err, e ∈ all_entries -> attempt conn e = Raise err ->
        failure_line (printed_name e) err ∈ create_and_deploy_output conn).
Proof.
  split; [apply returned_agents | split].
  - intros e a Hin Hok. rewrite returned_agents.
    apply list_elem_of_omap. exists e. split; [exact Hin |].
    unfold succeeded. rewrite Hok. reflexivity.
  - intros e err. apply failures_reported.
Qed.

(** C6, as stated, fails: when the back end refuses the liquidity
    monitor, the nine other agents are returned and nothing in the
    result stands for the failed one (no finding, no UNKNOWN
    severity). *)
Lemma deploy_failure_leaves_no_finding :
  create_and_deploy_agents flaky_backend =
    [ "portfolio-risk-analyzer"; "volatility-tracker";
      "mempool-scanner"; "sandwich-detector"; "tx-optimizer";
      "proposal-analyzer"; "sentiment-monitor"; "voting-optimizer";
      "defi-coordinator-agent" ]
  /\ ~ failures_recorded (fun a : string => a) flaky_backend.
Proof.
  split; [reflexivity |].
  intros H.
  destruct (H ("liquidity-monitor", "Liquidity Monitor",
               "Monitors liquidity and slippage risks",
               entry_blueprint (nth 1 create_risk_management_agents coordinator_entry))
              "backend unavailable") as (a & Hin & Hid).
  - apply (list_elem_of_lookup_2 _ 1). reflexivity.
  - reflexivity.
  - simpl in Hid. subst a. revert Hin.
    apply (bool_decide_unpack _). vm_compute. exact I.
Qed.

(** [demonstrate_coordination] does not read the coordinator's answer:
    two runs whose webhook calls both succeed print the same lines. *)
Lemma coordination_ignores_response {Agent Response : Type}
    (agent_id : Agent -> string) (repr : value -> string)
    (webhook1 webhook2 : Agent -> dict -> result Response)
    (agents : list Agent) (coordinator : Agent) (answer1 answer2 : Response) :
  find_coordinator agent_id agents = Some coordinator ->
  webhook1 coordinator [("prompt", Str (coordination_prompt repr))] = Ok answer1 ->
  webhook2 coordinator [("prompt", Str (coordination_prompt repr))] = Ok answer2 ->
  demonstrate_coordination agent_id webhook1 repr agents
  = demonstrate_coordination agent_id webhook2 repr agents.
Proof.
  intros Hfind H1 H2. unfold demonstrate_coordination.
  rewrite Hfind, H1, H2. reflexivity.
Qed.




(** *** Substring search *)

Lemma starts_with_spec p s :
  starts_with p s = true <-> exists post, s = p +:+ post.
Proof.
  revert s. induction p as [|a p IH]; intros s; simpl.
  - split; [intros _; exists s; reflexivity | reflexivity].
  - destruct s as [|b s]; simpl.
    + split; [discriminate | intros [post H]; discriminate H].
    + rewrite andb_true_iff, Ascii.eqb_eq, IH. split.
      * intros [-> [post ->]]. exists post. reflexivity.
      * intros [post H]. injection H as -> ->. split; [reflexivity | eauto].
Qed.

(** [contains sub s] holds exactly when [sub] occurs in [s]. *)
Lemma contains_spec sub s :
  contains sub s = true <-> exists pre post, s = pre +:+ sub +:+ post.
Proof.
  induction s as [|b s IH]; simpl.
  - rewrite orb_false_r, starts_with_spec. split.
    + intros [post H]. exists "", post. exact H.
    + intros (pre & post & H). destruct pre; [exists post; exact H | discriminate H].
  - rewrite orb_true_iff, starts_with_spec, IH. split.
    + intros [[post H] | (pre & post & H)].
      * exists "", post. exact H.
      * exists (String b pre), post. simpl. rewrite H. reflexivity.
    + intros (pre & post & H). destruct pre as [|c pre]; simpl in H.
      * left. exists post. exact H.
      * right. injection H as _ H. eauto.
Qed.

Lemma any_in_spec xs s :
  any_in xs s = true <-> exists x pre post, x ∈ xs /\ s = pre +:+ x +:+ post.
Proof.
  unfold any_in. rewrite existsb_exists. split.
  - intros (x & Hin & Hc). apply contains_spec in Hc as (pre & post & H).
    exists x, pre, post. split; [apply list_elem_of_In, Hin | exact H].
  - intros (x & pre & post & Hin & H). exists x. split; [apply list_elem_of_In, Hin |].
    apply contains_spec. eauto.
Qed.

(** *** The clean-up block *)

Lemma any_keyword_in_string keywords s :
  any_keyword_in keywords (Str s) = Ok (any_in keywords s).
Proof.
  induction keywords as [|k keywords IH]; [reflexivity |].
  cbn [any_keyword_in in_value bind]. unfold any_in in *. cbn [existsb].
  destruct (contains k s); [reflexivity | exact IH].
Qed.

Lemma any_keyword_in_total keywords v :
  (forall k, exists b, in_value k v = Ok b) ->
  exists b, any_keyword_in keywords v = Ok b.
Proof.
  intros H. induction keywords as [|k keywords IH]; [eexists; reflexivity |].
  cbn [any_keyword_in]. destruct (H k) as [b ->]. cbn [bind].
  destruct b; [eexists; reflexivity | exact IH].
Qed.

Lemma cleanup_matches_raises info :
  (exists e, cleanup_matches info = Raise e) <-> malformed_info info.
Proof.
  unfold cleanup_matches, malformed_info, info_id.
  destruct info as [s | q | z | b | l | d]; cbn [bind];
    try (split; [intros _; exact I | intros _; eexists; reflexivity]).
  destruct (default (Str "") (get "id" d)) as [s | q | z | b | l | d']; cbn [bind].
  - split; [| intros []]. intros [e H]. rewrite any_keyword_in_string in H. discriminate H.
  - split; [intros _; exact I | intros _; eexists; reflexivity].
  - split; [intros _; exact I | intros _; eexists; reflexivity].
  - split; [intros _; exact I | intros _; eexists; reflexivity].
  - split; [| intros []]. intros [e H].
    destruct (any_keyword_in_total cleanup_keywords (List l)) as [b Hb];
      [intros k; eexists; reflexivity | congruence].
  - split; [| intros []]. intros [e H].
    destruct (any_keyword_in_total cleanup_keywords (Dict d')) as [b Hb];
      [intros k; eexists; reflexivity | congruence].
Qed.

Section CleanupProps.

Context {Agent : Type} (load : value -> result Agent) (delete : Agent -> result unit)
  (repr : value -> string).

Lemma cleanup_loop_skip before info after :
  cleanup_one load delete repr info = Ok [] ->
  cleanup_loop load delete repr (before ++ info :: after)
  = cleanup_loop load delete repr (before ++ after).
Proof.
  intros H. induction before as [|x before IH]; simpl.
  - rewrite H. reflexivity.
  - destruct (cleanup_one load delete repr x); [rewrite IH |]; reflexivity.
Qed.

Lemma cleanup_loop_abort before info after e :
  cleanup_one load delete repr info = Raise e ->
  cleanup_loop load delete repr (before ++ info :: after)
  = cleanup_loop load delete repr before.
Proof.
  intros H. induction before as [|x before IH]; simpl.
  - rewrite H. reflexivity.
  - destruct (cleanup_one load delete repr x); [rewrite IH |]; reflexivity.
Qed.

End CleanupProps.

(** The clean-up of [main] recognises an existing agent by the thirteen
    keywords, as substrings of its id.  Of the ten ids that
    [create_and_deploy_agents] creates it recognises nine: "tx-optimizer"
    contains no keyword, and an existing agent of that id is passed over,
    whatever the back end answers. *)
Theorem cleanup_passes_over_tx_optimizer :
  (forall d s, get "id" d = Some (Str s) ->
     (cleanup_matches (Dict d) = Ok true <->
      exists keyword pre post,
        keyword ∈ cleanup_keywords /\ s = pre +:+ keyword +:+ post)
     /\ exists b, cleanup_matches (Dict d) = Ok b)
  /\ (forall id, id ∈ all_agent_ids ->
        cleanup_matches (Dict [("id", Str id)]) = Ok (negb (String.eqb id "tx-optimizer")))
  /\ (forall (Agent : Type) (load : value -> result Agent) (delete : Agent -> result unit)
             (repr : value -> string) before d after,
        get "id" d = Some (Str "tx-optimizer") ->
        cleanup_loop load delete repr (before ++ Dict d :: after)
        = cleanup_loop load delete repr (before ++ after)).
Proof.
  split; [| split].
  - intros d s Hid. unfold cleanup_matches, info_id. rewrite Hid.
    change (default (Str "") (Some (Str s))) with (Str s). cbn [bind].
    rewrite any_keyword_in_string. split; [| eauto].
    rewrite <- any_in_spec. split; [intros [= H]; exact H | intros H; rewrite H; reflexivity].
  - intros id Hin. unfold all_agent_ids in Hin. cbn in Hin.
    repeat (apply elem_of_cons in Hin as [-> | Hin]; [vm_compute; reflexivity |]).
    inversion Hin.
  - intros Agent load delete repr before d after Hid.
    apply cleanup_loop_skip. unfold cleanup_one, cleanup_matches, info_id.
    rewrite Hid. reflexivity.
Qed.

(** A deletion that fails is passed over and the clean-up goes on; an
    entry of the listing that is not a dictionary, or whose id is a
    number or a boolean, ends the clean-up without a message: the entries
    after it are not examined. *)
Theorem cleanup_stops_at_malformed_entry {Agent : Type}
    (load : value -> result Agent) (delete : Agent -> result unit) (repr : value -> string) :
  (forall before info after,
      malformed_info info ->
      cleanup_loop load delete repr (before ++ info :: after)
      = cleanup_loop load delete repr before)
  /\ (forall info rest e,
        cleanup_matches info = Ok true ->
        delete_existing load delete repr info = Raise e ->
        cleanup_loop load delete repr (info :: rest) = cleanup_loop load delete repr rest)
  /\ (forall info rest line,
        cleanup_matches info = Ok true ->
        delete_existing load delete repr info = Ok line ->
        cleanup_loop load delete repr (info :: rest)
        = line :: cleanup_loop load delete repr rest).
Proof.
  split; [| split].
  - intros before info after Hbad.
    apply cleanup_matches_raises in Hbad as [e He].
    apply (cleanup_loop_abort _ _ _ _ _ _ e). unfold cleanup_one. rewrite He. reflexivity.
  - intros info rest e Hm Hd. cbn [cleanup_loop]. unfold cleanup_one.
    rewrite Hm. cbn [bind]. rewrite Hd. reflexivity.
  - intros info rest line Hm Hd. cbn [cleanup_loop]. unfold cleanup_one.
    rewrite Hm. cbn [bind]. rewrite Hd. reflexivity.
Qed.

(** *** The status report and the demonstrations on the created agents *)

Section Created.

Context {Agent : Type} (agent_id : Agent -> string) (conn : backend Agent).
Hypothesis Hids : keeps_ids agent_id conn.

Lemma succeeded_id e a : succeeded conn e = Some a -> agent_id a = entry_id e.
Proof.
  unfold succeeded, attempt, create_and_start.
  destruct (Agent_create conn _ _ _ _) as [agent|err] eqn:E; cbn [bind]; [| discriminate].
  destruct (Agent_set_state conn agent RUNNING); cbn [bind]; [| discriminate].
  intros [= <-]. exact (Hids _ _ _ _ _ E).
Qed.

(** Selecting created agents by their id is selecting the entries. *)
Lemma filter_created (P : string -> bool) (es : list agent_entry) :
  filter (fun a => P (agent_id a) = true) (omap (succeeded conn) es)
  = omap (succeeded conn) (filter (fun e => P (entry_id e) = true) es).
Proof.
  induction es as [|e es IH]; [reflexivity |].
  rewrite (filter_cons _ e). cbn [omap list_omap].
  destruct (succeeded conn e) as [a|] eqn:E.
  - rewrite filter_cons, (succeeded_id _ _ E).
    destruct (decide (P (entry_id e) = true)).
    + cbn [omap list_omap]. rewrite E. f_equal. exact IH.
    + exact IH.
  - destruct (decide (P (entry_id e) = true)).
    + cbn [omap list_omap]. rewrite E. exact IH.
    + exact IH.
Qed.

Lemma find_containing_created keyword (es : list agent_entry) :
  find_agent_containing agent_id keyword (omap (succeeded conn) es)
  = head (omap (succeeded conn)
            (filter (fun e => contains keyword (entry_id e) = true) es)).
Proof.
  induction es as [|e es IH]; [reflexivity |].
  rewrite (filter_cons _ e). cbn [omap list_omap].
  destruct (succeeded conn e) as [a|] eqn:E.
  - cbn [find_agent_containing]. rewrite (succeeded_id _ _ E).
    destruct (decide (contains keyword (entry_id e) = true)) as [Hc | Hc].
    + rewrite Hc. cbn [omap list_omap]. rewrite E. reflexivity.
    + apply not_true_is_false in Hc. rewrite Hc. exact IH.
  - destruct (decide (contains keyword (entry_id e) = true)).
    + cbn [omap list_omap]. rewrite E. exact IH.
    + exact IH.
Qed.

Lemma find_coordinator_created (es : list agent_entry) :
  find_coordinator agent_id (omap (succeeded conn) es)
  = head (omap (succeeded conn)
            (filter (fun e => String.eqb (entry_id e) COORDINATOR_AGENT_ID = true) es)).
Proof.
  induction es as [|e es IH]; [reflexivity |].
  rewrite (filter_cons _ e). cbn [omap list_omap].
  destruct (succeeded conn e) as [a|] eqn:E.
  - cbn [find_coordinator]. rewrite (succeeded_id _ _ E).
    destruct (decide (String.eqb (entry_id e) COORDINATOR_AGENT_ID = true)) as [Hc | Hc].
    + rewrite Hc. cbn [omap list_omap]. rewrite E. reflexivity.
    + apply not_true_is_false in Hc. rewrite Hc. exact IH.
  - destruct (decide (String.eqb (entry_id e) COORDINATOR_AGENT_ID = true)).
    + cbn [omap list_omap]. rewrite E. exact IH.
    + exact IH.
Qed.

End Created.

(** When the back end hands out agents under the ids they were created
    with, the three groups that [print_system_status] counts are exactly
    the successfully created agents of the three factories, in order, and
    the number of active agents is their sum plus one if the coordinator
    was created (the report itself always says one coordinator). *)
Theorem status_groups_are_created_agents {Agent : Type}
    (agent_id : Agent -> string) (conn : backend Agent)
    (Hids : keeps_ids agent_id conn) :
  let agents := create_and_deploy_agents conn in
  status_risk_agents agent_id agents = omap (succeeded conn) create_risk_management_agents
  /\ status_mev_agents agent_id agents = omap (succeeded conn) create_mev_protection_agents
  /\ status_governance_agents agent_id agents
     = omap (succeeded conn) create_governance_agents
  /\ length agents
     = (length (status_risk_agents agent_id agents)
        + length (status_mev_agents agent_id agents)
        + length (status_governance_agents agent_id agents)
        + length (option_list (succeeded conn coordinator_entry)))%nat.
Proof.
  cbn zeta.
  assert (Hr : status_risk_agents agent_id (create_and_deploy_agents conn)
               = omap (succeeded conn) create_risk_management_agents).
  { unfold status_risk_agents. rewrite returned_agents.
    rewrite (filter_created agent_id conn Hids (any_in ["portfolio"; "liquidity"; "volatility"])).
    reflexivity. }
  assert (Hm : status_mev_agents agent_id (create_and_deploy_agents conn)
               = omap (succeeded conn) create_mev_protection_agents).
  { unfold status_mev_agents. rewrite returned_agents.
    rewrite (filter_created agent_id conn Hids (any_in ["mempool"; "sandwich"; "tx-optimizer"])).
    reflexivity. }
  assert (Hg : status_governance_agents agent_id (create_and_deploy_agents conn)
               = omap (succeeded conn) create_governance_agents).
  { unfold status_governance_agents. rewrite returned_agents.
    rewrite (filter_created agent_id conn Hids (any_in ["proposal"; "sentiment"; "voting"])).
    reflexivity. }
  repeat split; [exact Hr | exact Hm | exact Hg |].
  rewrite Hr, Hm, Hg, returned_agents. unfold all_entries.
  rewrite !omap_app, !length_app. cbn [omap list_omap].
  destruct (succeeded conn coordinator_entry) as [a|];
    [change (length (option_list (Some a))) with 1%nat
    | change (length (option_list (@None Agent))) with 0%nat]; cbn [length]; lia.
Qed.

Lemma partial_backend_keeps_ids : keeps_ids (fun a : string => a) partial_backend.
Proof.
  intros bp id name description a. cbn [Agent_create partial_backend].
  destruct (String.eqb id COORDINATOR_AGENT_ID); [discriminate | congruence].
Qed.

(** With the sentiment monitor not started and the coordinator not
    created: eight active agents, in groups of three, three and two. *)
Lemma status_groups_are_created_agents_partial :
  let agents := create_and_deploy_agents partial_backend in
  status_risk_agents (fun a : string => a) agents
  = omap (succeeded partial_backend) create_risk_management_agents
  /\ status_mev_agents (fun a : string => a) agents
     = omap (succeeded partial_backend) create_mev_protection_agents
  /\ status_governance_agents (fun a : string => a) agents
     = omap (succeeded partial_backend) create_governance_agents
  /\ length agents
     = (length (status_risk_agents (fun a : string => a) agents)
        + length (status_mev_agents (fun a : string => a) agents)
        + length (status_governance_agents (fun a : string => a) agents)
        + length (option_list (succeeded partial_backend coordinator_entry)))%nat.
Proof.
  apply (status_groups_are_created_agents (fun a : string => a) partial_backend).
  apply partial_backend_keeps_ids.
Defined.

(** When the back end hands out agents under the ids they were created
    with, each demonstration addresses the agent created for it: the
    substring searches for "portfolio-risk-analyzer", "mempool-scanner"
    and "proposal-analyzer" and the search for the coordinator id find
    the agent created under that id, and find none exactly when that
    creation failed. *)
Theorem demonstrations_find_their_agents {Agent : Type}
    (agent_id : Agent -> string) (conn : backend Agent)
    (Hids : keeps_ids agent_id conn) :
  let agents := create_and_deploy_agents conn in
  find_agent_containing agent_id "portfolio-risk-analyzer" agents
  = created_as conn "portfolio-risk-analyzer"
  /\ find_agent_containing agent_id "mempool-scanner" agents
     = created_as conn "mempool-scanner"
  /\ find_agent_containing agent_id "proposal-analyzer" agents
     = created_as conn "proposal-analyzer"
  /\ find_coordinator agent_id agents = created_as conn COORDINATOR_AGENT_ID.
Proof.
  cbn zeta. rewrite returned_agents.
  rewrite !(find_containing_created agent_id conn Hids),
          (find_coordinator_created agent_id conn Hids).
  repeat split; unfold created_as;
    match goal with
    | |- _ = match lookup_entry ?id with _ => _ end =>
        let e := eval vm_compute in (lookup_entry id) in
        change (lookup_entry id) with e
    end; cbv beta iota;
    match goal with
    | |- head (omap _ ?l) = _ =>
        let l' := eval vm_compute in l in
        change l with l'
    end; cbn [omap list_omap];
    match goal with
    | |- context [succeeded conn ?e] => destruct (succeeded conn e); reflexivity
    end.
Qed.

(** With the coordinator not created: the three domain agents are found
    and the coordinator is not. *)
Lemma demonstrations_find_their_agents_partial :
  let agents := create_and_deploy_agents partial_backend in
  find_agent_containing (fun a : string => a) "portfolio-risk-analyzer" agents
  = created_as partial_backend "portfolio-risk-analyzer"
  /\ find_agent_containing (fun a : string => a) "mempool-scanner" agents
     = created_as partial_backend "mempool-scanner"
  /\ find_agent_containing (fun a : string => a) "proposal-analyzer" agents
     = created_as partial_backend "proposal-analyzer"
  /\ find_coordinator (fun a : string => a) agents
     = created_as partial_backend COORDINATOR_AGENT_ID.
Proof.
  apply (demonstrations_find_their_agents (fun a : string => a) partial_backend).
  apply partial_backend_keeps_ids.
Defined.

(** The test [test_swarm_specialization_coverage] fails: its risk
    assertions hold, and of the MEV areas "mempool" and "sandwich" are
    covered, but no specialization of an MEV agent contains
    "optimization"; the governance assertions, which it does not reach,
    would hold. *)
Theorem specialization_coverage_test_fails :
  test_swarm_specialization_coverage = Raise "AssertionError"
  /\ bind (specializations create_risk_management_agents)
          (assert_covered ["portfolio"; "liquidity"; "volatility"]) = Ok tt
  /\ bind (specializations create_mev_protection_agents)
          (assert_covered ["mempool"; "sandwich"]) = Ok tt
  /\ bind (specializations create_governance_agents)
          (assert_covered ["proposal"; "sentiment"; "voting"]) = Ok tt
  /\ (forall e spec,
        e ∈ create_mev_protection_agents ->
        get "specialization" (strategy_config (strategy (entry_blueprint e))) = Some (Str spec) ->
        ~ exists pre post, spec = pre +:+ "optimization" +:+ post).
Proof.
  repeat split; try (vm_compute; reflexivity).
  intros e spec Hin Hspec Hsub. apply contains_spec in Hsub.
  unfold create_mev_protection_agents in Hin.
  repeat (apply elem_of_cons in Hin as [-> | Hin];
          [cbn in Hspec; injection Hspec as <-; vm_compute in Hsub; discriminate Hsub |]).
  inversion Hin.
Qed.

(** The four demonstrations never read what the webhook answers: with
    two webhooks that raise on the same calls with the same text, they
    print the same lines, whatever the answers are. *)
Theorem demonstrations_ignore_answers {Agent Response : Type}
    (agent_id : Agent -> string) (repr : value -> string)
    (webhook1 webhook2 : Agent -> dict -> result Response) (agents : list Agent)
    (Hsame : forall agent payload,
        raised (webhook1 agent payload) = raised (webhook2 agent payload)) :
  demonstrate_risk_assessment agent_id webhook1 repr agents
  = demonstrate_risk_assessment agent_id webhook2 repr agents
  /\ demonstrate_mev_protection agent_id webhook1 repr agents
     = demonstrate_mev_protection agent_id webhook2 repr agents
  /\ demonstrate_governance_advisory agent_id webhook1 repr agents
     = demonstrate_governance_advisory agent_id webhook2 repr agents
  /\ demonstrate_coordination agent_id webhook1 repr agents
     = demonstrate_coordination agent_id webhook2 repr agents.
Proof.
  unfold demonstrate_risk_assessment, demonstrate_mev_protection,
    demonstrate_governance_advisory, demonstrate_coordination.
  repeat split;
    match goal with
    | |- context [match ?found with Some _ => _ | None => _ end] =>
        destruct found as [agent|]; [| reflexivity]
    end;
    match goal with
    | |- context [webhook1 ?a ?payload] =>
        specialize (Hsame a payload);
        destruct (webhook1 a payload), (webhook2 a payload);
        cbn [raised] in Hsame; congruence
    end.
Qed.

(** A run with two agents and two webhooks that answer differently. *)
Lemma demonstrations_ignore_answers_sample :
  let agents := ["proposal-analyzer"; "defi-coordinator-agent"] in
  let agent_id := fun a : string => a in
  let repr := fun _ : value => "{...}" in
  demonstrate_risk_assessment agent_id cautious_webhook repr agents
  = demonstrate_risk_assessment agent_id relaxed_webhook repr agents
  /\ demonstrate_mev_protection agent_id cautious_webhook repr agents
     = demonstrate_mev_protection agent_id relaxed_webhook repr agents
  /\ demonstrate_governance_advisory agent_id cautious_webhook repr agents
     = demonstrate_governance_advisory agent_id relaxed_webhook repr agents
  /\ demonstrate_coordination agent_id cautious_webhook repr agents
     = demonstrate_coordination agent_id relaxed_webhook repr agents.
Proof.
  apply (demonstrations_ignore_answers (fun a : string => a) (fun _ => "{...}")
           cautious_webhook relaxed_webhook ["proposal-analyzer"; "defi-coordinator-agent"]).
  intros agent payload. unfold cautious_webhook, relaxed_webhook.
  destruct (String.eqb agent "proposal-analyzer"); reflexivity.
Defined.

End SwarmProps.

(* ===================================================================== *)
(** ** Properties of the Solana integration *)
(* ===================================================================== *)

Module SolanaProps.

Import Py Solana.

Lemma find_pool_Some pools address pool :
  find_pool pools address = Some pool ->
  pool ∈ pools /\ pool_address pool = address.
Proof.
  induction pools as [|p pools IH]; simpl; [discriminate |].
  destruct (String.eqb (pool_address p) address) eqn:E.
  - intros [= <-]. apply String.eqb_eq in E. split; [left | exact E].
  - intros H. destruct (IH H) as [Hin Haddr]. split; [right; exact Hin | exact Haddr].
Qed.

Lemma find_pool_None pools address :
  find_pool pools address = None ->
  forall pool, pool ∈ pools -> pool_address pool <> address.
Proof.
  induction pools as [|p pools IH]; simpl; intros H pool Hin.
  - inversion Hin.
  - destruct (String.eqb (pool_address p) address) eqn:E; [discriminate |].
    apply String.eqb_neq in E.
    apply elem_of_cons in Hin as [-> | Hin]; [exact E | apply IH; assumption].
Qed.

(** C9: for every pool address, [get_dex_pool_data] returns a
    [SolanaDEXData] value, never [None], whose [pool_address] is the
    queried address: the matching entry of the mock pools (two, as
    [__init__] builds them), or else the default SOL/USDC record with
    the queried address. *)
Theorem get_dex_pool_data_never_none (self : SolanaOnchainAgent) (address : string) :
  (exists data,
      get_dex_pool_data self address = Some data
      /\ pool_address data = address
      /\ (data ∈ mock_pools self
          \/ (data = default_pool address
              /\ token_a data = "SOL" /\ token_b data = "USDC"
              /\ forall pool, pool ∈ mock_pools self -> pool_address pool <> address)))
  /\ forall rpc, length (mock_pools (init rpc)) = 2.
Proof.
  split; [| reflexivity].
  unfold get_dex_pool_data.
  destruct (find_pool (mock_pools self) address) as [pool|] eqn:E.
  - destruct (find_pool_Some _ _ _ E) as [Hin Haddr].
    exists pool. repeat split; [exact Haddr | left; exact Hin].
  - exists (default_pool address). repeat split.
    right. repeat split. apply find_pool_None, E.
Qed.

(** C10: for every transaction signature, [check_transaction_risk]
    reports mev_detected=False, sandwich_attack=False,
    frontrunning=False, price_impact=0.02, risk_level="LOW" and
    confidence=0.95; the signature is only echoed back, and no other
    entry of the result depends on it. *)
Theorem check_transaction_risk_constant
    (self : SolanaOnchainAgent) (transaction_signature now : string) :
  let result := check_transaction_risk self transaction_signature now in
  get "signature" result = Some (Str transaction_signature)
  /\ get "mev_detected" result = Some (Bool false)
  /\ get "sandwich_attack" result = Some (Bool false)
  /\ get "frontrunning" result = Some (Bool false)
  /\ get "price_impact" result = Some (Float 0.02)
  /\ get "risk_level" result = Some (Str "LOW")
  /\ get "confidence" result = Some (Float 0.95)
  /\ (forall other key, key <> "signature" ->
        get key (check_transaction_risk self other now) = get key result).
Proof.
  repeat split.
  intros other key Hkey. unfold check_transaction_risk. cbn [get].
  destruct (String.eqb "signature" key) eqn:E; [| reflexivity].
  apply String.eqb_eq in E. congruence.
Qed.

(** *** The wallet risk score *)

Local Open Scope Q_scope.
Local Open Scope list_scope.

Lemma symbol_unknown_raises account :
  (exists e, symbol_unknown account = Swarm.Raise e) <-> unhashable_symbol account.
Proof.
  unfold symbol_unknown, unhashable_symbol.
  destruct (get "symbol" account) as [[s | q | z | b | l | d] |]; cbn;
    (split;
      [ intros [e H]; try discriminate H; exact I
      | intros HP; try (destruct HP; fail); eexists; reflexivity ]).
Qed.

Lemma add_unknown_tokens_raises risk accounts :
  (exists e, add_unknown_tokens risk accounts = Swarm.Raise e)
  <-> Exists unhashable_symbol accounts.
Proof.
  revert risk. induction accounts as [|account accounts IH]; intros risk; cbn [add_unknown_tokens].
  - split; [intros [e H]; discriminate H | intros H; inversion H].
  - rewrite Exists_cons, <- symbol_unknown_raises.
    destruct (symbol_unknown account) as [unknown|e] eqn:E; cbn [Swarm.bind].
    + rewrite IH. split; [intros H; right; exact H |].
      intros [[e' H] | H]; [discriminate H | exact H].
    + split; [intros _; left; eauto | intros _; eauto].
Qed.

(** [_calculate_wallet_risk] raises ([TypeError], from the membership
    test in the set of known tokens) exactly when the symbol of some
    token account is a list or a dictionary; in every other case it
    returns a score. *)
Theorem wallet_risk_raises_on_unhashable_symbol (sol_balance : Q) (token_accounts : list dict) :
  ((exists e, _calculate_wallet_risk sol_balance token_accounts = Swarm.Raise e)
   <-> Exists unhashable_symbol token_accounts)
  /\ ((exists r, _calculate_wallet_risk sol_balance token_accounts = Swarm.Ok r)
      <-> Forall (fun account => ~ unhashable_symbol account) token_accounts).
Proof.
  assert (H : (exists e, _calculate_wallet_risk sol_balance token_accounts = Swarm.Raise e)
              <-> Exists unhashable_symbol token_accounts).
  { unfold _calculate_wallet_risk.
    match goal with |- context [add_unknown_tokens ?r0 _] => set (risk := r0) end.
    rewrite <- (add_unknown_tokens_raises risk).
    destruct (add_unknown_tokens risk token_accounts); cbn [Swarm.bind].
    - split; intros [e He]; discriminate He.
    - split; intros _; eauto. }
  split; [exact H |].
  destruct (_calculate_wallet_risk sol_balance token_accounts) as [r|e].
  - split; [| eauto]. intros _. apply Forall_forall. intros x Hx Hbad.
    assert (HE : Exists unhashable_symbol token_accounts) by (apply Exists_exists; eauto).
    apply H in HE as [e He]. discriminate He.
  - split; [intros [r Hr]; discriminate Hr |]. intros HF. exfalso.
    assert (HE : Exists unhashable_symbol token_accounts) by (apply H; eauto).
    apply Exists_exists in HE as (x & Hx & Hbad).
    rewrite Forall_forall in HF. exact (HF x Hx Hbad).
Qed.

(** *** [get_wallet_info] and the monitoring lists *)

(** [get_wallet_info] takes the client branch whenever the agent has a
    client, as every agent built by [__init__] has: for every address the
    wallet has balance 25.75, no token accounts, no transactions and risk
    score 0.  The mock wallet (two token accounts, risk 0.25) is returned
    only by an agent without a client. *)
Theorem get_wallet_info_uses_client (slice_to : nat -> string -> string)
    (self : SolanaOnchainAgent) (wallet_address : string) :
  (forall rpc, client (init rpc) = Some (mkClient rpc))
  /\ (forall c, client self = Some c ->
        exists info,
          get_wallet_info slice_to self wallet_address
          = (info, ["✅ Retrieved onchain data for " +:+ slice_to 8%nat wallet_address +:+ "..."])
          /\ address info = wallet_address
          /\ sol_balance info == 25.75
          /\ token_accounts info = []
          /\ recent_transactions info = []
          /\ risk_score info == 0)
  /\ (client self = None ->
        get_wallet_info slice_to self wallet_address
        = (mock_wallet wallet_address,
           ["📊 Using mock data for wallet: " +:+ slice_to 8%nat wallet_address +:+ "..."])).
Proof.
  split; [reflexivity | split].
  - intros c Hc. unfold get_wallet_info. cbn [SOLANA_AVAILABLE]. rewrite Hc.
    eexists. split; [reflexivity |]. cbn. repeat split; reflexivity.
  - intros Hc. unfold get_wallet_info. cbn [SOLANA_AVAILABLE]. rewrite Hc. reflexivity.
Qed.

Section Monitoring.

Context (slice_to slice_last : nat -> string -> string) (format_float : string -> Q -> string).

Lemma monitor_dex_pool_step self printed pool_address :
  exists pool_data,
    get_dex_pool_data (solana_agent self) pool_address = Some pool_data
    /\ Solana.pool_address pool_data = pool_address
    /\ exists lines,
         length lines = 4%nat
         /\ monitor_dex_pool format_float (self, printed) pool_address
            = ({| solana_agent := solana_agent self;
                  monitored_wallets := monitored_wallets self;
                  monitored_pools := monitored_pools self ++ [pool_data] |},
               printed ++ lines).
Proof.
  unfold monitor_dex_pool, get_dex_pool_data.
  destruct (find_pool (mock_pools (solana_agent self)) pool_address) as [pool|] eqn:E.
  - exists pool. split; [reflexivity |]. split; [apply (find_pool_Some _ _ _ E) |].
    eexists. split; [| reflexivity]. reflexivity.
  - eexists. split; [reflexivity |]. split; [reflexivity |].
    eexists. split; [| reflexivity]. reflexivity.
Qed.

Lemma monitor_dex_pools_fold pool_addresses self printed :
  let result := fold_left (monitor_dex_pool format_float) pool_addresses (self, printed) in
  solana_agent result.1 = solana_agent self
  /\ monitored_wallets result.1 = monitored_wallets self
  /\ Solana.pool_address <$> monitored_pools result.1
     = (Solana.pool_address <$> monitored_pools self) ++ pool_addresses
  /\ length result.2 = (length printed + 4 * length pool_addresses)%nat.
Proof.
  revert self printed. induction pool_addresses as [|a rest IH]; intros self printed.
  - cbn. rewrite app_nil_r. repeat split. lia.
  - cbn [fold_left].
    destruct (monitor_dex_pool_step self printed a) as (pool & _ & Haddr & lines & Hlen & ->).
    cbn zeta in IH.
    match goal with
    | |- context [fold_left _ rest (?s, ?p)] => destruct (IH s p) as (H1 & H2 & H3 & H4)
    end.
    cbn zeta. rewrite H1, H2, H3, H4.
    cbn [solana_agent monitored_wallets monitored_pools].
    rewrite fmap_app, <- app_assoc, length_app, Hlen.
    cbn [fmap list_fmap app length]. rewrite Haddr.
    repeat split. lia.
Qed.

End Monitoring.

(** [monitor_dex_pools] adds exactly one record per queried address to
    [monitored_pools], in the order of the queries, each carrying the
    address it was queried with (unknown and repeated addresses
    included); it leaves the wallets and the agent as they are and prints
    four lines per address. *)
Theorem monitor_dex_pools_appends_each (format_float : string -> Q -> string)
    (self : SolanaIntegratedDeFiGuardian) (pool_addresses : list string) :
  let result := monitor_dex_pools format_float self pool_addresses in
  Solana.pool_address <$> monitored_pools result.1
  = (Solana.pool_address <$> monitored_pools self) ++ pool_addresses
  /\ monitored_wallets result.1 = monitored_wallets self
  /\ solana_agent result.1 = solana_agent self
  /\ length result.2 = (4 * length pool_addresses)%nat.
Proof.
  cbn zeta. unfold monitor_dex_pools.
  destruct (monitor_dex_pools_fold format_float pool_addresses self []) as (H1 & H2 & H3 & H4).
  repeat split; assumption.
Qed.

(** Whatever branch [get_wallet_info] takes, the wallet it returns
    carries the queried address. *)
Lemma get_wallet_info_address (slice_to : nat -> string -> string)
    (self : SolanaOnchainAgent) (wallet_address : string) :
  address (get_wallet_info slice_to self wallet_address).1 = wallet_address.
Proof.
  unfold get_wallet_info.
  destruct (if SOLANA_AVAILABLE then client self else None); [| reflexivity].
  destruct (Swarm.bind _ _); [| reflexivity].
  destruct (_calculate_wallet_risk _ _); reflexivity.
Qed.

(** [add_wallet_monitoring] adds exactly one wallet to
    [monitored_wallets], at the end, carrying the queried address, and
    leaves the pools and the agent as they are; after the lines of
    [get_wallet_info] it prints four lines. *)
Theorem add_wallet_monitoring_appends_one
    (slice_to slice_last : nat -> string -> string) (format_float : string -> Q -> string)
    (self : SolanaIntegratedDeFiGuardian) (wallet_address : string) :
  let result := add_wallet_monitoring slice_to slice_last format_float self wallet_address in
  exists wallet_info,
    monitored_wallets result.1 = monitored_wallets self ++ [wallet_info]
    /\ wallet_info = (get_wallet_info slice_to (solana_agent self) wallet_address).1
    /\ address wallet_info = wallet_address
    /\ monitored_pools result.1 = monitored_pools self
    /\ solana_agent result.1 = solana_agent self
    /\ length result.2
       = (length (get_wallet_info slice_to (solana_agent self) wallet_address).2 + 4)%nat.
Proof.
  cbn zeta. unfold add_wallet_monitoring.
  pose proof (get_wallet_info_address slice_to (solana_agent self) wallet_address) as Haddr.
  destruct (get_wallet_info slice_to (solana_agent self) wallet_address) as [info printed].
  exists info. cbn [fst snd] in *. repeat split; [exact Haddr |].
  rewrite length_app. reflexivity.
Qed.

End SolanaProps.

(* ===================================================================== *)
(** ** Properties of the coordination policy *)
(* ===================================================================== *)

Module CoordinatorProps.

Import Coordinator.
Local Open Scope Q_scope.
Local Open Scope list_scope.

(** *** Severities *)

Lemma severity_max_rank a b :
  severity_rank (severity_max a b) = Nat.max (severity_rank a) (severity_rank b).
Proof. destruct a, b; reflexivity. Qed.

Lemma max_severity_upper l s :
  s ∈ l -> (severity_rank s <= severity_rank (max_severity l))%nat.
Proof.
  induction l as [|x l IH]; intros Hin; [inversion Hin |].
  simpl. rewrite severity_max_rank.
  apply elem_of_cons in Hin as [-> | Hin]; [lia |].
  specialize (IH Hin). lia.
Qed.

Lemma max_severity_attained l : l <> [] -> max_severity l ∈ l.
Proof.
  induction l as [|x l IH]; intros Hne; [congruence |].
  simpl. destruct l as [|y l].
  - simpl. replace (severity_max x LOW) with x by (destruct x; reflexivity). left.
  - assert (H : max_severity (y :: l) ∈ y :: l) by (apply IH; discriminate).
    unfold severity_max at 1.
    destruct (Nat.leb _ _); [right; exact H | left; reflexivity].
Qed.

(** *** Confidences *)

Lemma below_lt c t : below c t = true <-> c < t.
Proof.
  unfold below. rewrite negb_true_iff.
  split; intros H.
  - apply Qnot_le_lt. intros Hle. apply Qle_bool_iff in Hle. congruence.
  - destruct (Qle_bool t c) eqn:E; [| reflexivity].
    apply Qle_bool_iff in E. apply Qlt_not_le in H. contradiction.
Qed.

Lemma below_ge c t : below c t = false <-> t <= c.
Proof.
  unfold below. rewrite negb_false_iff. apply Qle_bool_iff.
Qed.

Lemma miss_product_app a b :
  miss_product (a ++ b) == miss_product a * miss_product b.
Proof.
  induction a as [|c a IH]; simpl.
  - ring.
  - rewrite IH. ring.
Qed.

Lemma miss_product_insert a c b :
  miss_product (a ++ c :: b) == (1 - c) * miss_product (a ++ b).
Proof.
  induction a as [|x a IH]; simpl.
  - reflexivity.
  - rewrite IH. ring.
Qed.

Lemma miss_product_range cs :
  Forall (fun c => 0 <= c /\ c <= 1) cs ->
  0 <= miss_product cs /\ miss_product cs <= 1.
Proof.
  induction 1 as [|c cs [Hc0 Hc1] _ [IH0 IH1]]; simpl.
  - split; discriminate.
  - split; nra.
Qed.

(** *** Step 1: merge *)

Lemma merge_kind_Some cfg signals k r :
  merge_kind cfg signals k = Some r ->
  proposers k signals <> []
  /\ rec_action r = k
  /\ rec_severity r = max_severity (severity <$> proposers k signals)
  /\ rec_confidence r = combine_confidence (confidence <$> proposers k signals)
  /\ rec_justification r = list_to_set (sig_id <$> proposers k signals).
Proof.
  unfold merge_kind. destruct (proposers k signals) as [|s rest]; [discriminate |].
  intros [= <-]. repeat split. discriminate.
Qed.

Lemma merge_kind_is_Some cfg signals k :
  proposers k signals <> [] -> is_Some (merge_kind cfg signals k).
Proof.
  unfold merge_kind. destruct (proposers k signals); [congruence | eauto].
Qed.

Lemma merge_kind_action cfg signals k r :
  merge_kind cfg signals k = Some r -> rec_action r = k.
Proof. intros H. apply merge_kind_Some in H. tauto. Qed.

Lemma filter_omap_action (f : ActionKind -> option Recommendation)
    (l : list ActionKind) k :
  (forall k' r, f k' = Some r -> rec_action r = k') ->
  filter (fun r => rec_action r = k) (omap f l) = omap f (filter (fun k' => k' = k) l).
Proof.
  intros Hf. induction l as [|a l IH]; [reflexivity |].
  rewrite filter_cons. cbn [omap list_omap].
  destruct (f a) as [r|] eqn:E.
  - rewrite filter_cons. rewrite (Hf _ _ E).
    destruct (decide (a = k)).
    + cbn [omap list_omap]. rewrite E. f_equal. exact IH.
    + exact IH.
  - destruct (decide (a = k)).
    + cbn [omap list_omap]. rewrite E. exact IH.
    + exact IH.
Qed.

Lemma all_kinds_filter k : filter (fun k' => k' = k) all_kinds = [k].
Proof. destruct k; reflexivity. Qed.

(** The merge holds exactly the recommendation of [merge_kind] for
    each action kind. *)
Lemma merge_filter_action cfg signals k :
  filter (fun r => rec_action r = k) (merge cfg signals)
  = option_list (merge_kind cfg signals k).
Proof.
  unfold merge. rewrite filter_omap_action.
  - rewrite all_kinds_filter. cbn [omap list_omap].
    destruct (merge_kind cfg signals k); reflexivity.
  - intros k' r. apply merge_kind_action.
Qed.

Lemma merge_elem cfg signals r :
  r ∈ merge cfg signals <-> merge_kind cfg signals (rec_action r) = Some r.
Proof.
  unfold merge. rewrite list_elem_of_omap. split.
  - intros (k & _ & Hk). rewrite (merge_kind_action _ _ _ _ Hk). exact Hk.
  - intros H. exists (rec_action r). split; [| exact H].
    destruct (rec_action r); apply (bool_decide_unpack _); vm_compute; exact I.
Qed.

Lemma proposers_insert k before s after :
  proposers k (before ++ s :: after)
  = proposers k before ++ (if decide (k ∈ proposed_actions s) then [s] else [])
    ++ proposers k after.
Proof.
  unfold proposers. rewrite filter_app, filter_cons.
  destruct (decide (k ∈ proposed_actions s)); reflexivity.
Qed.

Lemma proposers_in_range k signals :
  Forall confidence_in_range signals ->
  Forall (fun c => 0 <= c /\ c <= 1) (confidence <$> proposers k signals).
Proof.
  intros H. apply Forall_fmap. unfold proposers.
  apply Forall_forall. intros s Hs. apply list_elem_of_filter in Hs as [_ Hs].
  rewrite Forall_forall in H. apply (H s Hs).
Qed.

(** *** Merged confidence

    The merged confidence is [1 - prod (1 - c_i)], written out on the
    sources. *)

Lemma miss_product_sources (l : list Signal) :
  miss_product (confidence <$> l)
  == fold_right Qmult 1 ((fun s => 1 - confidence s) <$> l).
Proof.
  induction l as [|s l IH]; cbn [fmap list_fmap miss_product fold_right].
  - reflexivity.
  - unfold miss_product in IH. rewrite IH. reflexivity.
Qed.

(** What one more signal does to the recommendation for [k]: nothing
    when it does not propose [k]; otherwise the confidence [c] of the
    recommendation becomes [c + c_s (1 - c)], the probabilistic OR of
    [c] and the confidence [c_s] of the signal. *)
Lemma merge_kind_add cfg before after s k r :
  merge_kind cfg (before ++ after) k = Some r ->
  exists r', merge_kind cfg (before ++ s :: after) k = Some r'
             /\ rec_confidence r' ==
                  (if decide (k ∈ proposed_actions s)
                   then rec_confidence r + confidence s * (1 - rec_confidence r)
                   else rec_confidence r).
Proof.
  intros Hr.
  destruct (merge_kind_Some _ _ _ _ Hr) as (Hne & _ & _ & Hconf & _).
  destruct (merge_kind_is_Some cfg (before ++ s :: after) k) as [r' Hr'].
  { rewrite proposers_insert. unfold proposers in Hne. rewrite filter_app in Hne.
    fold (proposers k before) in Hne. fold (proposers k after) in Hne.
    destruct (proposers k before); [| discriminate].
    destruct (decide _); [discriminate |]. exact Hne. }
  exists r'. split; [exact Hr' |].
  destruct (merge_kind_Some _ _ _ _ Hr') as (_ & _ & _ & Hconf' & _).
  rewrite Hconf, Hconf'. unfold combine_confidence.
  rewrite proposers_insert.
  replace (proposers k (before ++ after))
    with (proposers k before ++ proposers k after)
    by (unfold proposers; symmetry; apply filter_app).
  destruct (decide _); cbn [app].
  - rewrite !fmap_app, fmap_cons, miss_product_insert. ring.
  - reflexivity.
Qed.

(** A recommendation merged from confidences in [0,1] has its
    confidence in [0,1]. *)
Lemma merge_kind_in_range cfg signals k r :
  Forall (fun x => 0 <= confidence x /\ confidence x <= 1) signals ->
  merge_kind cfg signals k = Some r ->
  0 <= rec_confidence r /\ rec_confidence r <= 1.
Proof.
  intros Hrange Hr.
  destruct (merge_kind_Some _ _ _ _ Hr) as (_ & _ & _ & -> & _).
  destruct (miss_product_range _ (proposers_in_range k _ Hrange)) as [H0 H1].
  unfold combine_confidence. split; lra.
Qed.

(** The same on the merge: a recommendation of the cycle without [s]
    has its counterpart, for the same action, in the cycle with [s]. *)
Lemma merge_add cfg before after s r :
  r ∈ merge cfg (before ++ after) ->
  exists r', r' ∈ merge cfg (before ++ s :: after)
             /\ rec_action r' = rec_action r
             /\ rec_confidence r' ==
                  (if decide (rec_action r ∈ proposed_actions s)
                   then rec_confidence r + confidence s * (1 - rec_confidence r)
                   else rec_confidence r).
Proof.
  intros Hr. apply merge_elem in Hr.
  destruct (merge_kind_add cfg before after s _ _ Hr) as (r' & Hr' & Hconf).
  assert (Ha : rec_action r' = rec_action r) by apply (merge_kind_action _ _ _ _ Hr').
  exists r'. split; [| split; [exact Ha | exact Hconf]].
  apply merge_elem. rewrite Ha. exact Hr'.
Qed.

Lemma merge_monotone cfg before after s r :
  Forall (fun x => 0 <= confidence x /\ confidence x <= 1) (before ++ s :: after) ->
  r ∈ merge cfg (before ++ after) ->
  exists r', r' ∈ merge cfg (before ++ s :: after)
             /\ rec_action r' = rec_action r
             /\ rec_confidence r <= rec_confidence r'.
Proof.
  intros Hrange Hr.
  destruct (merge_add cfg before after s r Hr) as (r' & Hr' & Ha & Hconf).
  exists r'. split; [exact Hr' |]. split; [exact Ha |].
  assert (Hrest : Forall (fun x => 0 <= confidence x /\ confidence x <= 1) (before ++ after)).
  { apply Forall_app in Hrange as [Hb Hsa]. apply Forall_cons in Hsa as [_ Ha'].
    apply Forall_app. split; assumption. }
  assert (Hs : 0 <= confidence s /\ confidence s <= 1).
  { apply Forall_app in Hrange as [_ Hsa]. apply Forall_cons in Hsa as [Hs _]. exact Hs. }
  apply merge_elem in Hr.
  destruct (merge_kind_in_range _ _ _ _ Hrest Hr) as [Hr0 Hr1].
  rewrite Hconf. destruct (decide _); [nra | lra].
Qed.

(** *** Step 2: rank *)

Lemma insert_ranked_perm r l : insert_ranked r l ≡ₚ r :: l.
Proof.
  induction l as [|x l IH]; simpl; [reflexivity |].
  destruct (outranks x r); [| reflexivity].
  rewrite IH. apply Permutation_swap.
Qed.

Lemma rank_perm l : rank l ≡ₚ l.
Proof.
  induction l as [|x l IH]; simpl; [reflexivity |].
  rewrite insert_ranked_perm, IH. reflexivity.
Qed.

(** *** Step 3: resolve *)

Lemma attach_action cfg ranked r : rec_action (attach cfg ranked r) = rec_action r.
Proof. reflexivity. Qed.

Lemma resolve_actions cfg ranked :
  rec_action <$> resolve cfg ranked
  = rec_action <$> filter (fun r => ~ superseded cfg ranked r) ranked.
Proof.
  unfold resolve. rewrite <- list_fmap_compose. apply list_fmap_ext.
  intros i r _. reflexivity.
Qed.

(** *** Step 4: emit *)

Lemma emit_lookup recs i :
  emit recs !! i
  = (fun r => {| action := rec_action r;
                 priority_rank := S i;
                 justification := rec_justification r |}) <$> recs !! i.
Proof. unfold emit. apply list_lookup_imap. Qed.

Lemma emit_length recs : length (emit recs) = length recs.
Proof. unfold emit. apply length_imap. Qed.

Lemma emit_actions recs : action <$> emit recs = rec_action <$> recs.
Proof.
  apply list_eq. intros i.
  rewrite !list_lookup_fmap, emit_lookup.
  destruct (recs !! i); reflexivity.
Qed.

Lemma emit_ranks recs : priority_rank <$> emit recs = seq 1 (length recs).
Proof.
  apply list_eq. intros i.
  rewrite list_lookup_fmap, emit_lookup.
  destruct (recs !! i) as [r|] eqn:E; simpl.
  - symmetry. apply lookup_seq_lt. apply lookup_lt_Some in E. exact E.
  - symmetry. apply lookup_seq_ge. apply lookup_ge_None in E. exact E.
Qed.

(** *** The plan *)

Lemma merge_actions_NoDup cfg signals : NoDup (rec_action <$> merge cfg signals).
Proof.
  assert (H : rec_action <$> merge cfg signals
              = filter (fun k => is_Some (merge_kind cfg signals k)) all_kinds).
  { unfold merge. generalize all_kinds.
    induction l as [|k l IH]; [reflexivity |].
    rewrite filter_cons. cbn [omap list_omap].
    destruct (merge_kind cfg signals k) as [r|] eqn:E.
    - destruct (decide (is_Some (Some r))) as [_ | Hn]; [| destruct Hn; eauto].
      cbn [fmap list_fmap]. rewrite (merge_kind_action _ _ _ _ E). f_equal. exact IH.
    - destruct (decide (is_Some None)) as [Hs | _]; [destruct Hs; discriminate |].
      exact IH. }
  rewrite H. eapply sublist_NoDup; [| apply sublist_filter].
  apply (bool_decide_unpack _). vm_compute. exact I.
Qed.

Lemma surviving_actions_NoDup cfg signals :
  NoDup (rec_action <$> surviving cfg signals).
Proof.
  unfold surviving. rewrite resolve_actions.
  eapply sublist_NoDup; [| apply fmap_sublist, sublist_filter].
  rewrite rank_perm. apply merge_actions_NoDup.
Qed.

(** C2: in every cycle the emitted plan has no two entries with the
    same [ActionKind], and its [priority_rank] values are 1, 2, 3, ...
    in order, without gaps or repeats. *)
Theorem plan_dedup_and_contiguous_ranks (cfg : Config) (signals : list Signal) :
  let plan := coordinate cfg signals in
  NoDup (action <$> entries plan)
  /\ priority_rank <$> entries plan = seq 1 (length (entries plan))
  /\ (forall i e, entries plan !! i = Some e -> priority_rank e = S i).
Proof.
  cbn [coordinate entries]. split; [| split].
  - rewrite emit_actions. apply surviving_actions_NoDup.
  - rewrite emit_ranks, emit_length. reflexivity.
  - intros i e. rewrite emit_lookup.
    destruct (surviving cfg signals !! i); [| discriminate].
    intros [= <-]. reflexivity.
Qed.


(** *** Step 5: the consensus gate *)

Lemma consensus_gate_true cfg recs :
  consensus_gate cfg recs = true <->
  exists i r,
    recs !! i = Some r
    /\ is_high (rec_severity r) = true
    /\ (forall j r', recs !! j = Some r' -> (j < i)%nat -> is_high (rec_severity r') = false)
    /\ rec_confidence r < consensus_threshold cfg.
Proof.
  unfold consensus_gate, top_high_item. split.
  - destruct (list_find _ recs) as [[i r]|] eqn:E; [| discriminate].
    intros Hb. apply list_find_Some in E as (Hi & Hr & Hfirst).
    exists i, r. repeat split; [exact Hi | exact Hr | | apply below_lt, Hb].
    intros j r' Hj Hlt. apply not_true_is_false. exact (Hfirst j r' Hj Hlt).
  - intros (i & r & Hi & Hr & Hfirst & Hlt).
    assert (E : list_find (fun r => is_high (rec_severity r) = true) recs = Some (i, r)).
    { apply list_find_Some. repeat split; [exact Hi | exact Hr |].
      intros j r' Hj Hji. rewrite (Hfirst j r' Hj Hji). discriminate. }
    rewrite E. apply below_lt, Hlt.
Qed.

(** C4: the plan is advisory exactly when its highest-ranked CRITICAL
    or HIGH item has a confidence below [consensus_threshold] (0.7 by
    default, as the coordinator blueprint configures it); the entries
    of the plan are the same whatever the threshold; a top item with
    merged confidence 0.6 gives [advisory = true] and one with 0.8 gives
    [advisory = false]. *)
Theorem consensus_gate_advisory :
  (forall cfg signals,
      advisory (coordinate cfg signals) = true <->
      exists i r,
        surviving cfg signals !! i = Some r
        /\ entries (coordinate cfg signals) !! i
           = Some {| action := rec_action r; priority_rank := S i;
                     justification := rec_justification r |}
        /\ is_high (rec_severity r) = true
        /\ (forall j r', surviving cfg signals !! j = Some r' -> (j < i)%nat ->
              is_high (rec_severity r') = false)
        /\ rec_confidence r < consensus_threshold cfg)
  /\ (forall cfg t signals,
        entries (coordinate (with_consensus_threshold cfg t) signals)
        = entries (coordinate cfg signals))
  /\ consensus_threshold default_config = 0.7
  /\ (forall signals i r,
        top_high_item (surviving default_config signals) = Some (i, r) ->
        (rec_confidence r == 0.6 -> advisory (coordinate default_config signals) = true)
        /\ (rec_confidence r == 0.8 -> advisory (coordinate default_config signals) = false)).
Proof.
  split; [| split; [| split]].
  - intros cfg signals. cbn [coordinate advisory entries].
    rewrite consensus_gate_true. split.
    + intros (i & r & Hi & H). exists i, r. split; [exact Hi |].
      split; [| exact H]. rewrite emit_lookup, Hi. reflexivity.
    + intros (i & r & Hi & _ & H). exists i, r. split; [exact Hi | exact H].
  - intros cfg t signals. reflexivity.
  - reflexivity.
  - intros signals i r Htop. cbn [coordinate advisory]. unfold consensus_gate.
    rewrite Htop. split; intros Hc.
    + apply below_lt. rewrite Hc. reflexivity.
    + apply below_ge. rewrite Hc. discriminate.
Qed.

(** *** The normaliser *)

Lemma normalize_Some cfg raw det s :
  normalize cfg raw det = Some s ->
  sig_id s = (detector_id det, snapshot_id raw)
  /\ severity s = (canonical cfg raw det).1
  /\ confidence s = (canonical cfg raw det).2
  /\ suppression_threshold cfg <= confidence s.
Proof.
  unfold normalize. destruct (canonical cfg raw det) as [sev conf].
  destruct (below conf (suppression_threshold cfg)) eqn:E; [discriminate |].
  intros [= <-]. cbn. repeat split. apply below_ge, E.
Qed.

Lemma normalize_None cfg raw det :
  normalize cfg raw det = None <->
  (canonical cfg raw det).2 < suppression_threshold cfg.
Proof.
  unfold normalize. destruct (canonical cfg raw det) as [sev conf]. cbn [snd].
  rewrite <- below_lt.
  destruct (below conf (suppression_threshold cfg)); split; congruence.
Qed.

(** *** Where justifications come from *)

Lemma merge_kind_justification cfg signals k r id :
  merge_kind cfg signals k = Some r ->
  id ∈ rec_justification r <-> exists s, s ∈ proposers k signals /\ sig_id s = id.
Proof.
  intros H. apply merge_kind_Some in H as (_ & _ & _ & _ & ->).
  rewrite elem_of_list_to_set, list_elem_of_fmap. split.
  - intros (s & -> & Hs). eauto.
  - intros (s & Hs & <-). eauto.
Qed.

Lemma merge_justified cfg signals r :
  r ∈ merge cfg signals -> justified_by signals r.
Proof.
  intros Hr id Hid. apply merge_elem in Hr.
  apply (merge_kind_justification _ _ _ _ id Hr) in Hid as (s & Hs & Heq).
  apply list_elem_of_filter in Hs as [_ Hs]. eauto.
Qed.

Lemma resolve_elem cfg ranked r :
  r ∈ resolve cfg ranked <->
  exists r0, r = attach cfg ranked r0 /\ r0 ∈ ranked /\ ~ superseded cfg ranked r0.
Proof.
  unfold resolve. rewrite list_elem_of_fmap. split.
  - intros (r0 & -> & H). apply list_elem_of_filter in H as [Hn Hin]. eauto.
  - intros (r0 & -> & Hin & Hn). exists r0. split; [reflexivity |].
    apply list_elem_of_filter. split; assumption.
Qed.

Lemma dropped_justifications_elem cfg ranked r id :
  id ∈ dropped_justifications cfg ranked r <->
  exists d, d ∈ ranked /\ supersedes cfg (rec_action r) (rec_action d)
            /\ id ∈ rec_justification d.
Proof.
  unfold dropped_justifications. rewrite elem_of_union_list. split.
  - intros (X & HX & Hid). apply list_elem_of_fmap in HX as (d & -> & Hd).
    apply list_elem_of_filter in Hd as [Hs Hd]. eauto.
  - intros (d & Hd & Hs & Hid). exists (rec_justification d). split; [| exact Hid].
    apply list_elem_of_fmap. exists d. split; [reflexivity |].
    apply list_elem_of_filter. split; assumption.
Qed.

Lemma resolve_justified cfg signals ranked :
  (forall r, r ∈ ranked -> justified_by signals r) ->
  forall r, r ∈ resolve cfg ranked -> justified_by signals r.
Proof.
  intros H r Hr id Hid.
  apply resolve_elem in Hr as (r0 & -> & Hr0 & _).
  cbn [attach rec_justification] in Hid.
  apply elem_of_union in Hid as [Hid | Hid].
  - exact (H r0 Hr0 id Hid).
  - apply dropped_justifications_elem in Hid as (d & Hd & _ & Hid).
    exact (H d Hd id Hid).
Qed.

Lemma surviving_justified cfg signals r :
  r ∈ surviving cfg signals -> justified_by signals r.
Proof.
  unfold surviving. apply resolve_justified.
  intros r0 Hr0. apply merge_justified with (cfg := cfg).
  rewrite <- (rank_perm (merge cfg signals)). exact Hr0.
Qed.

Lemma emit_elem recs e :
  e ∈ emit recs ->
  exists r, r ∈ recs /\ action e = rec_action r /\ justification e = rec_justification r.
Proof.
  intros He. apply list_elem_of_lookup in He as [i Hi].
  rewrite emit_lookup in Hi.
  destruct (recs !! i) as [r|] eqn:E; [| discriminate].
  injection Hi as <-. exists r. split; [| split; reflexivity].
  apply list_elem_of_lookup. eauto.
Qed.

Lemma cycle_signals_elem cfg findings s :
  s ∈ cycle_signals cfg findings <->
  exists det raw, (det, raw) ∈ findings /\ normalize cfg raw det = Some s.
Proof.
  unfold cycle_signals. rewrite list_elem_of_omap. split.
  - intros ([det raw] & Hin & Hn). eauto.
  - intros (det & raw & Hin & Hn). exists (det, raw). split; assumption.
Qed.

(** C5: a finding whose canonical confidence is below the suppression
    threshold is dropped by [normalize] (the result is [None]); every
    signal that reaches the coordinator has a confidence at or above
    the threshold; and every id in a justification of the emitted plan
    is the id of such a signal.  Under the default threshold 0.5 a
    finding of confidence 0.3 is always dropped. *)
Theorem suppressed_never_in_plan (cfg : Config) :
  (forall raw det,
      (canonical cfg raw det).2 < suppression_threshold cfg ->
      normalize cfg raw det = None)
  /\ (forall findings s,
        s ∈ cycle_signals cfg findings -> suppression_threshold cfg <= confidence s)
  /\ (forall findings e id,
        e ∈ entries (run_cycle cfg findings) -> id ∈ justification e ->
        exists det raw s,
          (det, raw) ∈ findings /\ normalize cfg raw det = Some s
          /\ sig_id s = id /\ suppression_threshold cfg <= confidence s)
  /\ (forall raw det, raw_confidence raw == 0.3 -> normalize default_config raw det = None).
Proof.
  split; [| split; [| split]].
  - intros raw det. apply normalize_None.
  - intros findings s Hs. apply cycle_signals_elem in Hs as (det & raw & _ & Hn).
    apply normalize_Some in Hn. tauto.
  - intros findings e id He Hid. cbn [run_cycle coordinate entries] in He.
    apply emit_elem in He as (r & Hr & _ & Hj). rewrite Hj in Hid.
    destruct (surviving_justified _ _ _ Hr id Hid) as (s & Hs & Heq).
    apply cycle_signals_elem in Hs as (det & raw & Hin & Hn).
    exists det, raw, s. repeat split; try assumption.
    apply normalize_Some in Hn. tauto.
  - intros raw det Hc. apply normalize_None.
    unfold canonical.
    destruct (severity_table default_config _ _); cbn [snd suppression_threshold default_config];
      rewrite Hc; reflexivity.
Qed.


(** *** Merging within a cycle *)

(** The confidence [normalize] gives a signal is at most the raw one. *)
Lemma canonical_confidence_le cfg raw det :
  (canonical cfg raw det).2 <= raw_confidence raw.
Proof.
  unfold canonical, confidence_penalty.
  destruct (severity_table cfg _ _); cbn [snd]; lra.
Qed.

(** Under a non-negative suppression threshold, findings whose
    confidence is at most 1 give signals whose confidence is in [0,1]. *)
Lemma cycle_signals_in_range cfg findings :
  0 <= suppression_threshold cfg ->
  Forall (fun f => raw_confidence f.2 <= 1) findings ->
  Forall (fun x => 0 <= confidence x /\ confidence x <= 1) (cycle_signals cfg findings).
Proof.
  intros Ht Hraw. apply Forall_forall. intros s Hs.
  apply cycle_signals_elem in Hs as (det & raw & Hin & Hn).
  rewrite Forall_forall in Hraw. specialize (Hraw _ Hin). cbn [snd] in Hraw.
  apply normalize_Some in Hn as (_ & _ & Hconf & Hle).
  pose proof (canonical_confidence_le cfg raw det) as Hcan.
  rewrite <- Hconf in Hcan. split; lra.
Qed.

Lemma cycle_signals_insert cfg before f after :
  cycle_signals cfg (before ++ f :: after)
  = cycle_signals cfg before ++ option_list (normalize cfg f.2 f.1)
    ++ cycle_signals cfg after.
Proof.
  unfold cycle_signals. rewrite omap_app. cbn [omap list_omap].
  destruct (normalize cfg f.2 f.1); reflexivity.
Qed.

(** One more finding in the cycle never lowers a merged confidence. *)
Lemma cycle_merge_monotone cfg before after det raw r :
  0 <= suppression_threshold cfg ->
  Forall (fun f => raw_confidence f.2 <= 1) (before ++ (det, raw) :: after) ->
  r ∈ merge cfg (cycle_signals cfg (before ++ after)) ->
  exists r', r' ∈ merge cfg (cycle_signals cfg (before ++ (det, raw) :: after))
             /\ rec_action r' = rec_action r
             /\ rec_confidence r <= rec_confidence r'.
Proof.
  intros Ht Hraw Hr.
  pose proof (cycle_signals_in_range cfg _ Ht Hraw) as Hrange.
  rewrite cycle_signals_insert in Hrange |- *. cbn [fst snd] in Hrange |- *.
  unfold cycle_signals in Hr. rewrite omap_app in Hr.
  fold (cycle_signals cfg before) in Hr. fold (cycle_signals cfg after) in Hr.
  destruct (normalize cfg raw det) as [s|]; cbn [option_list app] in Hrange |- *.
  - apply merge_monotone; assumption.
  - exists r. split; [exact Hr |]. split; [reflexivity | apply Qle_refl].
Qed.

(** C1: when signals of a cycle propose the same [ActionKind], the
    merge holds exactly one recommendation for it, whose severity is
    the maximum of the sources' severities, whose confidence is
    [1 - prod (1 - c_i)] over the sources, and whose justification is
    the set of source ids; merging confidences 0.6 and 0.5 gives 0.8
    (as rationals, and also on binary64 floats).  One more signal [s]
    in the cycle turns the confidence [c] of a recommendation whose
    action it proposes into [c + c_s (1 - c)] and leaves the others as
    they are; so it never lowers a merged confidence when the
    confidences are in [0,1], as the signals of a cycle are whose
    findings have a confidence of at most 1 (the suppression threshold
    being non-negative). *)
Theorem merge_same_action (cfg : Config) :
  (forall signals k,
      let sources := filter (fun s => k ∈ proposed_actions s) signals in
      sources <> [] ->
      exists r,
        filter (fun r => rec_action r = k) (merge cfg signals) = [r]
        /\ (forall s, s ∈ sources ->
              (severity_rank (severity s) <= severity_rank (rec_severity r))%nat)
        /\ (exists s, s ∈ sources /\ severity s = rec_severity r)
        /\ rec_confidence r
           == 1 - fold_right Qmult 1 ((fun s => 1 - confidence s) <$> sources)
        /\ rec_justification r = list_to_set (sig_id <$> sources))
  /\ (forall s1 s2 k,
        k ∈ proposed_actions s1 -> k ∈ proposed_actions s2 ->
        confidence s1 == 0.6 -> confidence s2 == 0.5 ->
        exists r, filter (fun r => rec_action r = k) (merge cfg [s1; s2]) = [r]
                  /\ rec_confidence r == 0.8)
  /\ combine_confidence_binary64 [0.6; 0.5]%float = 0.8%float
  /\ (forall before after s r,
        r ∈ merge cfg (before ++ after) ->
        exists r', r' ∈ merge cfg (before ++ s :: after)
                   /\ rec_action r' = rec_action r
                   /\ rec_confidence r' ==
                        (if decide (rec_action r ∈ proposed_actions s)
                         then rec_confidence r + confidence s * (1 - rec_confidence r)
                         else rec_confidence r))
  /\ (forall before after s r,
        Forall (fun x => 0 <= confidence x /\ confidence x <= 1) (before ++ s :: after) ->
        r ∈ merge cfg (before ++ after) ->
        exists r', r' ∈ merge cfg (before ++ s :: after)
                   /\ rec_action r' = rec_action r
                   /\ rec_confidence r <= rec_confidence r')
  /\ (forall before after det raw r,
        0 <= suppression_threshold cfg ->
        Forall (fun f => raw_confidence f.2 <= 1) (before ++ (det, raw) :: after) ->
        r ∈ merge cfg (cycle_signals cfg (before ++ after)) ->
        exists r', r' ∈ merge cfg (cycle_signals cfg (before ++ (det, raw) :: after))
                   /\ rec_action r' = rec_action r
                   /\ rec_confidence r <= rec_confidence r').
Proof.
  split; [| split; [| split; [reflexivity | split; [| split]]]].
  - intros signals k sources Hne. subst sources. fold (proposers k signals) in Hne |- *.
    destruct (merge_kind_is_Some cfg signals k Hne) as [r Hr].
    exists r. rewrite merge_filter_action, Hr.
    destruct (merge_kind_Some _ _ _ _ Hr) as (_ & _ & Hsev & Hconf & Hjust).
    split; [reflexivity |]. split; [| split; [| split]].
    + intros s Hs. rewrite Hsev. apply max_severity_upper.
      apply list_elem_of_fmap_2, Hs.
    + assert (Hin : max_severity (severity <$> proposers k signals)
                    ∈ severity <$> proposers k signals).
      { apply max_severity_attained. destruct (proposers k signals); [congruence | discriminate]. }
      apply list_elem_of_fmap in Hin as (s & Heq & Hs).
      exists s. split; [exact Hs | congruence].
    + rewrite Hconf. unfold combine_confidence.
      rewrite miss_product_sources. reflexivity.
    + exact Hjust.
  - intros s1 s2 k H1 H2 Hc1 Hc2.
    assert (Hp : proposers k [s1; s2] = [s1; s2]).
    { unfold proposers. rewrite !filter_cons.
      destruct (decide (k ∈ proposed_actions s1)); [| contradiction].
      destruct (decide (k ∈ proposed_actions s2)); [| contradiction].
      reflexivity. }
    rewrite merge_filter_action. unfold merge_kind. rewrite Hp.
    eexists. split; [reflexivity |].
    cbn [rec_confidence fmap list_fmap].
    unfold combine_confidence, miss_product. cbn [fold_right].
    rewrite Hc1, Hc2. reflexivity.
  - intros before after s r. apply merge_add.
  - intros before after s r. apply merge_monotone.
  - intros before after det raw r. apply cycle_merge_monotone.
Qed.

(** The two alert signals of confidence 0.6 and 0.5: merged, they give
    one recommendation of confidence 0.8, and the second never lowers
    what the first alone gives. *)
Lemma merge_same_action_alerts :
  (exists r,
      filter (fun r => rec_action r = ALERT_USER)
        (merge default_config [alert_signal_a; alert_signal_b]) = [r]
      /\ rec_confidence r == 0.8)
  /\ (forall r,
        r ∈ merge default_config [alert_signal_a] ->
        exists r', r' ∈ merge default_config [alert_signal_a; alert_signal_b]
                   /\ rec_action r' = rec_action r
                   /\ rec_confidence r <= rec_confidence r').
Proof.
  destruct (merge_same_action default_config) as (_ & Hpair & _ & _ & Hmono & _).
  split.
  - apply (Hpair alert_signal_a alert_signal_b ALERT_USER).
    + left.
    + left.
    + reflexivity.
    + reflexivity.
  - intros r Hr. apply (Hmono [alert_signal_a] [] alert_signal_b r).
    + repeat constructor; cbn; lra.
    + exact Hr.
Defined.

(** *** Worked cycles *)

Example merge_two_alerts :
  (fun r => (rec_action r, rec_severity r, Qred (rec_confidence r),
             elements (rec_justification r)))
    <$> merge default_config [alert_signal_a; alert_signal_b]
  = [(ALERT_USER, HIGH, 4 # 5,
      [("liquidity-monitor", "snapshot-1")%string;
       ("portfolio-risk-analyzer", "snapshot-1")%string])].
Proof. vm_compute. reflexivity. Qed.

Example single_alert_is_advisory :
  advisory (coordinate default_config [alert_signal_a]) = true
  /\ advisory (coordinate default_config [alert_signal_a; alert_signal_b]) = false.
Proof. split; vm_compute; reflexivity. Qed.

Example weak_finding_suppressed :
  normalize default_config weak_finding portfolio_detector = None
  /\ entries (run_cycle default_config [(portfolio_detector, weak_finding)]) = [].
Proof. split; vm_compute; reflexivity. Qed.

End CoordinatorProps.
